(** * xmltosps: Triple-S metadata to SPS syntax

    A shallow embedding of [xmltosps.go] and the properties of the three
    statement generators ([DataList], [VariableLabels], [ValueLabels]), of
    [SaveToSPSS] and of [main].

    Conventions.
    - Go's [string] is a byte sequence: [String.string].
    - Go's [int] is taken at its 64-bit width (the width on amd64 and
      arm64): a [Z] with the wrap-around of [+] written out ([int_add]).
    - [*os.File] is threaded through the generators as an explicit [File]
      state; a write may fail, as scheduled by the file itself.
    - [if err != nil { return err }] is the sequencing of the [Gen] monad. *)

From Stdlib Require Import List String Ascii ZArith Lia Bool.
From Stdlib Require Import Setoid Morphisms.
From Stdlib Require Import DecimalString.
Import ListNotations.

Local Open Scope string_scope.
Local Open Scope Z_scope.

(** ** Go primitives *)

Module Go.

(** The three bytes the format strings need beyond printable text. *)
Definition TAB : string := String (ascii_of_nat 9) EmptyString.
Definition NL : string := String (ascii_of_nat 10) EmptyString.
Definition DQ : string := String (ascii_of_nat 34) EmptyString.

(** [int]: 64-bit two's complement. *)
Definition int := Z.
Definition int_min : Z := - 2 ^ 63.
Definition int_max : Z := 2 ^ 63 - 1.
Definition in_int (z : Z) : Prop := int_min <= z <= int_max.
Definition wrap (z : Z) : int := (z + 2 ^ 63) mod 2 ^ 64 - 2 ^ 63.
Definition int_add (a b : int) : int := wrap (a + b).

(** The verb [%d] at an [int]: signed decimal, no padding. *)
Definition fmt_d (z : int) : string := NilZero.string_of_int (Z.to_int z).

(** The [error] interface, as the message its [Error()] returns. *)
Record error := mkError { Error : string }.

(** [range] over a slice with its index: the pairs [(i, x)], counting up
    from [from]. The length of a slice is an [int], so the index never
    wraps and is counted in [Z] as it is. *)
Fixpoint enumerate {A} (from : int) (l : list A) : list (int * A) :=
  match l with
  | [] => []
  | x :: xs => (from, x) :: enumerate (from + 1) xs
  end.

End Go.
Import Go.

(** ** The Triple-S structures *)

(** [Type], [Variable] are reserved words here: the fields [Type] and
    [Variable] and the struct [Variable] carry a mark; [Val.Name] is [VName],
    apart from [Variable.Name]. *)

Record Posit := { Start : int; Finish : int }.

Record Val := { Value : int; VName : string }.

Record Variable_ := {
  Type_ : string;
  Name : string;
  Label : string;
  Position : Posit;
  Vals : list Val
}.

Record Variables := { Variable' : list Variable_ }.

(** [new(Variables)]: the zero value. *)
Definition new_Variables : Variables := {| Variable' := [] |}.

(** ** The output file *)

(** What a write that fails leaves behind: the error, and how many bytes of
    the argument reached the file before it. *)
Record Fault := { fault_err : error; fault_written : nat }.

(** [contents]: the strings written so far, one per [WriteString] call, oldest
    first; a call that failed left the part of its argument that reached the
    file. [pending]: what the next calls will meet, [None] for a write that
    succeeds; once the schedule is exhausted every write succeeds. *)
Record File := {
  contents : list string;
  pending : list (option Fault)
}.

Definition file_bytes (f : File) : string := String.concat "" (contents f).

Definition no_faults (f : File) : Prop := Forall (fun x => x = None) (pending f).

Definition WriteString (s : string) (f : File) : File * option error :=
  match pending f with
  | [] => ({| contents := contents f ++ [s]; pending := [] |}, None)
  | None :: p => ({| contents := contents f ++ [s]; pending := p |}, None)
  | Some ft :: p =>
      ({| contents := contents f ++ [substring 0 (fault_written ft) s];
          pending := p |}, Some (fault_err ft))
  end.

(** ** Statements that write and may stop the function with an error *)

Definition Gen := File -> File * option error.

(** [return nil] *)
Definition ret_nil : Gen := fun f => (f, None).

(** [_, err = a; if err != nil { return err }; b] *)
Definition andThen (a b : Gen) : Gen :=
  fun f =>
    match a f with
    | (f', None) => b f'
    | (f', Some e) => (f', Some e)
    end.

Notation "a ;; b" := (andThen a b) (at level 61, right associativity).

(** [for _, x := range l { body x }] *)
Fixpoint for_range {A} (body : A -> Gen) (l : list A) : Gen :=
  match l with
  | [] => ret_nil
  | x :: xs => body x ;; for_range body xs
  end.

(** [for i, x := range l { body i x }] *)
Definition for_range_i {A} (body : int -> A -> Gen) (l : list A) : Gen :=
  for_range (fun ix => body (fst ix) (snd ix)) (enumerate 0 l).

(** ** The generators *)

Definition is_multiple (v : Variable_) : bool := (Type_ v =? "multiple")%string.

(** [func (v Variable) VarType() string] *)
Definition VarType (v : Variable_) : string :=
  if ((Type_ v =? "character") || (Type_ v =? "time"))%string then " (A)"
  else if (Type_ v =? "date")%string then " (A)"
  else "".

(** The two format strings of [DataList]'s loop. *)
Definition layout_line (v : Variable_) : string :=
  TAB ++ Name v ++ TAB ++ fmt_d (Start (Position v)) ++ "-"
      ++ fmt_d (Finish (Position v)) ++ VarType v ++ NL.

Definition layout_line_mult (v : Variable_) (i : int) (mult : Val) : string :=
  TAB ++ Name v ++ "#" ++ fmt_d (Value mult) ++ TAB
      ++ fmt_d (int_add (Start (Position v)) i) ++ "-"
      ++ fmt_d (int_add (Start (Position v)) i) ++ NL.

Definition DataList_header (o : string) : list string :=
  [ "FILE HANDLE longdata" ++ NL ++ "/NAME=" ++ DQ ++ o ++ DQ ++ "." ++ NL;
    "DATA LIST FILE=longdata" ++ NL ++ "/" ].

Definition DataList_trailer : string := "." ++ NL ++ NL.

(** The body of [for _, v := range d.Variable] in [DataList]. *)
Definition DataList_body (v : Variable_) : Gen :=
  if negb (is_multiple v) then
    WriteString (layout_line v)
  else
    for_range_i (fun i mult => WriteString (layout_line_mult v i mult)) (Vals v).

(** [func DataList(o string, f *os.File, d *Variables) error] *)
Definition DataList (o : string) (f : File) (d : Variables) : File * option error :=
  (WriteString ("FILE HANDLE longdata" ++ NL ++ "/NAME=" ++ DQ ++ o ++ DQ ++ "." ++ NL) ;;
   WriteString ("DATA LIST FILE=longdata" ++ NL ++ "/") ;;
   for_range DataList_body (Variable' d) ;;
   WriteString ("." ++ NL ++ NL) ;;
   ret_nil) f.

(** The two format strings of [VariableLabels]'s loop. *)
Definition label_line (v : Variable_) : string :=
  TAB ++ Name v ++ TAB ++ DQ ++ Label v ++ DQ ++ NL.

Definition label_line_mult (v : Variable_) (mult : Val) : string :=
  TAB ++ Name v ++ "#" ++ fmt_d (Value mult) ++ TAB ++ DQ ++ Label v ++ DQ ++ NL.

(** The body of [for _, v := range d.Variable] in [VariableLabels]. *)
Definition VariableLabels_body (v : Variable_) : Gen :=
  if negb (is_multiple v) then
    WriteString (label_line v)
  else
    for_range (fun mult => WriteString (label_line_mult v mult)) (Vals v).

(** [func VariableLabels(f *os.File, d *Variables) error] *)
Definition VariableLabels (f : File) (d : Variables) : File * option error :=
  (WriteString ("VARIABLE LABELS" ++ NL) ;;
   for_range VariableLabels_body (Variable' d) ;;
   WriteString ("." ++ NL ++ "EXECUTE." ++ NL ++ NL ++ NL) ;;
   ret_nil) f.

(** The format strings of [ValueLabels]'s loop. *)
Definition section_name (name : string) : string := TAB ++ name ++ NL.

Definition section_name_mult (v : Variable_) (mult : Val) : string :=
  TAB ++ Name v ++ "#" ++ fmt_d (Value mult) ++ NL.

Definition single_line (v : Variable_) (vs : Val) : string :=
  TAB ++ TAB ++ fmt_d (Value vs) ++ " " ++ DQ ++ Name v ++ DQ ++ NL.

Definition mult_lines (mult : Val) : string :=
  TAB ++ TAB ++ "0" ++ DQ ++ "No" ++ DQ ++ NL
      ++ TAB ++ TAB ++ "1 " ++ DQ ++ VName mult ++ DQ ++ NL ++ "/".

Definition logical_lines : string :=
  TAB ++ TAB ++ "0" ++ DQ ++ "False" ++ DQ ++ NL
      ++ TAB ++ TAB ++ "1 " ++ DQ ++ "True" ++ DQ ++ NL ++ "/".

(** The body of [for _, v := range d.Variable] in [ValueLabels]. *)
Definition ValueLabels_body (v : Variable_) : Gen :=
  if (Type_ v =? "single")%string then
    WriteString (section_name (Name v)) ;;
    for_range (fun vs => WriteString (single_line v vs)) (Vals v) ;;
    WriteString "/"
  else if (Type_ v =? "multiple")%string then
    for_range (fun mult =>
                 WriteString (section_name_mult v mult) ;;
                 WriteString (mult_lines mult)) (Vals v)
  else if (Type_ v =? "logical")%string then
    WriteString (section_name (Name v)) ;;
    WriteString logical_lines
  else ret_nil.

(** [func ValueLabels(f *os.File, d *Variables) error] *)
Definition ValueLabels (f : File) (d : Variables) : File * option error :=
  (WriteString ("VALUE LABELS" ++ NL) ;;
   for_range ValueLabels_body (Variable' d) ;;
   WriteString ("EXECUTE." ++ NL ++ NL) ;;
   ret_nil) f.

(** ** Functions that may end the process *)

(** How a call ends: it returns its [error] (or [nil]) to the caller, or
    [log.Fatalln] prints a message and exits with status 1 inside the call.
    The date and time [log] puts before the message are left out. *)
Inductive Outcome :=
| Returned (err : option error)
| Fatal (msg : string).

(** [log.Fatalln(err)]: the operand and a newline. *)
Definition Fatalln (e : error) : Outcome := Fatal (Error e ++ NL).

(** [func SaveToSPSS(p string, fn string, f *os.File) error] *)
Definition SaveToSPSS (p fn : string) (f : File) : File * Outcome :=
  match WriteString ("SAVE OUTFILE='" ++ p ++ "/" ++ fn ++ ".sav'" ++ NL ++ "/COMPRESSED.") f with
  | (f', Some err) => (f', Fatalln err)
  | (f', None) => (f', Returned None)
  end.

(** ** The command-line shell *)

(** The opened XML file: what [ioutil.ReadAll] returns on it. *)
Record XmlFile := { xml_bytes : string; xml_read_err : option error }.

Definition ReadAll (x : XmlFile) : string * option error :=
  (xml_bytes x, xml_read_err x).

(** What [main] meets outside this file: the arguments, the file system, and
    the library functions [xml.Unmarshal], [path.Base], [path.Ext],
    [path.Dir] and [strings.Trim]. [xml_Unmarshal b d] is the structure [d]
    after decoding [b] into it, and the error of the decoder. *)
Record World := {
  Args : list string;
  os_Open : string -> error + XmlFile;
  os_Create : string -> error + File;
  xml_Unmarshal : string -> Variables -> Variables * option error;
  path_Base : string -> string;
  path_Ext : string -> string;
  path_Dir : string -> string;
  strings_Trim : string -> string -> string
}.

(** How the process ends: status 0 with the output file written, or status 1
    with the logged message and the output file as far as it was written. *)
Inductive Exit :=
| Exit0 (out : File)
| Exit1 (msg : string) (out : option File).

(** [log] ends the message with a newline when it has none. *)
Definition ends_with_NL (s : string) : bool :=
  match String.get (String.length s - 1) s with
  | Some c => Ascii.eqb c (ascii_of_nat 10)
  | None => false
  end.

Definition log_line (s : string) : string :=
  if ends_with_NL s then s else s ++ NL.

(** [func main()] *)
Definition main (w : World) : Exit :=
  if (List.length (Args w) <? 3)%nat then
    Exit1 ("Usage: XMLtoSPS <XML:filepath> <ASC:filepath>" ++ NL) None
  else
    let input := nth 1 (Args w) "" in
    match os_Open w input with
    | inl err => Exit1 (Error err ++ NL) None
    | inr xmlFile =>
        let '(b, _) := ReadAll xmlFile in
        let '(data, _) := xml_Unmarshal w b new_Variables in
        let fn := strings_Trim w (path_Base w input) (path_Ext w input) in
        match os_Create w (path_Dir w input ++ "/" ++ fn ++ ".sps") with
        | inl err =>
            Exit1 (log_line ("Please use forward slash in file path. As an example C:/Users/..."
                               ++ NL ++ Error err)) None
        | inr file =>
            match DataList (nth 2 (Args w) "") file data with
            | (file, Some err) => Exit1 (Error err ++ NL) (Some file)
            | (file, None) =>
            match VariableLabels file data with
            | (file, Some err) => Exit1 (Error err ++ NL) (Some file)
            | (file, None) =>
            match ValueLabels file data with
            | (file, Some err) => Exit1 (Error err ++ NL) (Some file)
            | (file, None) =>
            match SaveToSPSS (path_Dir w input) fn file with
            | (file, Fatal msg) => Exit1 msg (Some file)
            | (file, Returned (Some err)) => Exit1 (Error err ++ NL) (Some file)
            | (file, Returned None) => Exit0 file
            end end end end
        end
    end.

(** ** What each generator writes, as a list *)

(** The strings one variable adds to each block, in the order written
    ([DataList_body_chunks], [VariableLabels_body_chunks] and
    [ValueLabels_body_chunks] prove them to be that), and the strings of each
    block ([DataList_writes], [VariableLabels_writes], [ValueLabels_writes]). *)
Definition layout_chunks (v : Variable_) : list string :=
  if negb (is_multiple v) then [layout_line v]
  else map (fun ix => layout_line_mult v (fst ix) (snd ix)) (enumerate 0 (Vals v)).

Definition label_chunks (v : Variable_) : list string :=
  if negb (is_multiple v) then [label_line v]
  else map (label_line_mult v) (Vals v).

Definition value_chunks (v : Variable_) : list string :=
  if (Type_ v =? "single")%string then
    section_name (Name v) :: map (single_line v) (Vals v) ++ ["/"]
  else if (Type_ v =? "multiple")%string then
    flat_map (fun mult => [section_name_mult v mult; mult_lines mult]) (Vals v)
  else if (Type_ v =? "logical")%string then
    [section_name (Name v); logical_lines]
  else [].

Definition DataList_chunks (o : string) (d : Variables) : list string :=
  DataList_header o ++ flat_map layout_chunks (Variable' d) ++ [DataList_trailer].

Definition VariableLabels_header : string := "VARIABLE LABELS" ++ NL.
Definition VariableLabels_trailer : string := "." ++ NL ++ "EXECUTE." ++ NL ++ NL ++ NL.

Definition VariableLabels_chunks (d : Variables) : list string :=
  [VariableLabels_header] ++ flat_map label_chunks (Variable' d)
    ++ [VariableLabels_trailer].

Definition ValueLabels_header : string := "VALUE LABELS" ++ NL.
Definition ValueLabels_trailer : string := "EXECUTE." ++ NL ++ NL.

Definition ValueLabels_chunks (d : Variables) : list string :=
  [ValueLabels_header] ++ flat_map value_chunks (Variable' d)
    ++ [ValueLabels_trailer].

Definition SaveToSPSS_chunk (p fn : string) : string :=
  "SAVE OUTFILE='" ++ p ++ "/" ++ fn ++ ".sav'" ++ NL ++ "/COMPRESSED.".

(** Writing a list of strings one after the other. *)
Definition write_all (l : list string) : Gen := for_range WriteString l.

(** A file after the writes of [l] all succeeded. *)
Definition emit (l : list string) (f : File) : File :=
  {| contents := contents f ++ l;
     pending := skipn (List.length l) (pending f) |}.

(** What a statement writes to a fresh file on which no write fails. *)
Definition empty_file : File := {| contents := []; pending := [] |}.

Definition emitted (g : Gen) : list string := contents (fst (g empty_file)).

(** The name of each layout entry of a variable: the plain name, or
    [name#code] for each coded value of a [multiple] variable. *)
Definition entry_names (v : Variable_) : list string :=
  if is_multiple v then map (fun mult => Name v ++ "#" ++ fmt_d (Value mult)) (Vals v)
  else [Name v].

(** The columns (and marker) of each layout entry of a variable. *)
Definition entry_spans (v : Variable_) : list string :=
  if is_multiple v then
    map (fun ix => fmt_d (int_add (Start (Position v)) (fst ix)) ++ "-"
                     ++ fmt_d (int_add (Start (Position v)) (fst ix)))
        (enumerate 0 (Vals v))
  else [fmt_d (Start (Position v)) ++ "-" ++ fmt_d (Finish (Position v)) ++ VarType v].

(** An entry of the layout block from its name and its columns, and a label
    assignment from a name and the label. *)
Definition layout_entry (name span : string) : string :=
  TAB ++ name ++ TAB ++ span ++ NL.

Definition label_entry (label name : string) : string :=
  TAB ++ name ++ TAB ++ DQ ++ label ++ DQ ++ NL.

(** The two shapes of a label line of the value-label block: a code and its
    text with a blank between them, and without. *)
Definition label_line_of (code : int) (text : string) : string :=
  TAB ++ TAB ++ fmt_d code ++ " " ++ DQ ++ text ++ DQ ++ NL.

Definition fixed_label_line (code : int) (text : string) : string :=
  TAB ++ TAB ++ fmt_d code ++ DQ ++ text ++ DQ ++ NL.

(** ** The claims of the specification the code does not meet, as worded *)

Module Spec.

(** A label line of a [single] variable pairing the code with the
    variable's label. *)
Definition single_line_with_label (v : Variable_) (vs : Val) : string :=
  label_line_of (Value vs) (Label v).

(** The section of a [single] variable in the value-label block: its name,
    then one such line per coded value. *)
Definition single_section_uses_label (v : Variable_) : Prop :=
  exists rest,
    emitted (ValueLabels_body v)
    = section_name (Name v) :: map (single_line_with_label v) (Vals v) ++ rest.

(** The types that carry value labels. *)
Definition labelled_type (t : string) : Prop :=
  t = "single" \/ t = "multiple" \/ t = "logical".

(** The value-label block has a section for the variable. *)
Definition has_value_section (v : Variable_) : Prop :=
  emitted (ValueLabels_body v) <> [].

End Spec.

(** ** Sample documents *)

Module Sample.

Definition var (t n l : string) (s e : int) (vals : list (int * string)) : Variable_ :=
  {| Type_ := t; Name := n; Label := l;
     Position := {| Start := s; Finish := e |};
     Vals := map (fun cv => {| Value := fst cv; VName := snd cv |}) vals |}.

Definition Q1 := var "character" "Q1" "Question 1" 1 5 [].
Definition Q2 := var "multiple" "Q2" "Multi" 6 6 [(1, "Red"); (2, "Blue")].
Definition Q3 := var "single" "Q3" "Gender" 8 8 [(1, "Male"); (2, "Female")].
Definition Q4 := var "logical" "Q4" "Owns a car" 9 9 [(5, "Yes"); (6, "No")].
Definition Q5 := var "multiple" "Q5" "Nothing to tick" 10 12 [].
Definition Q6 := var "numeric" "Q6" "Age" 13 15 [].

Definition doc : Variables := {| Variable' := [Q1; Q2] |}.
Definition survey : Variables := {| Variable' := [Q1; Q2; Q3; Q4; Q5; Q6] |}.

Definition disk_full : error := mkError "write out.sps: no space left on device".

(** A file on which the first write fails, nothing written. *)
Definition full_disk : File :=
  {| contents := []; pending := [Some {| fault_err := disk_full; fault_written := 0 |}] |}.

Definition syntax_error : error := mkError "XML syntax error on line 1: unexpected EOF".

(** A world in which [C:/MySurvey.xml] holds bytes that are no XML document:
    the decoder leaves the structure as it was and returns an error. *)
Definition broken_xml : World :=
  {| Args := ["xmltosps"; "C:/MySurvey.xml"; "C:/MySurvey.asc"];
     os_Open := fun _ => inr {| xml_bytes := "<sss><survey>"; xml_read_err := None |};
     os_Create := fun _ => inr empty_file;
     xml_Unmarshal := fun _ d => (d, Some syntax_error);
     path_Base := fun _ => "MySurvey.xml";
     path_Ext := fun _ => ".xml";
     path_Dir := fun _ => "C:";
     strings_Trim := fun _ _ => "MySurvey" |}.

End Sample.


(** ** The fields each generator reads *)

(** A coded value with its text blanked. *)
Definition code_only (m : Val) : Val := {| Value := Value m; VName := "" |}.

(** What [DataList] reads of a variable: type, name and start column; the
    finish column unless the variable is [multiple]; the codes of a
    [multiple] variable. *)
Definition layout_view (v : Variable_) : Variable_ :=
  {| Type_ := Type_ v;
     Name := Name v;
     Label := "";
     Position := {| Start := Start (Position v);
                    Finish := if is_multiple v then 0 else Finish (Position v) |};
     Vals := if is_multiple v then map code_only (Vals v) else [] |}.

(** What [VariableLabels] reads of a variable: type, name and label; the
    codes of a [multiple] variable. *)
Definition label_view (v : Variable_) : Variable_ :=
  {| Type_ := Type_ v;
     Name := Name v;
     Label := Label v;
     Position := {| Start := 0; Finish := 0 |};
     Vals := if is_multiple v then map code_only (Vals v) else [] |}.

(** What [ValueLabels] reads of a variable at most: type, name and coded
    values. *)
Definition value_view (v : Variable_) : Variable_ :=
  {| Type_ := Type_ v;
     Name := Name v;
     Label := "";
     Position := {| Start := 0; Finish := 0 |};
     Vals := Vals v |}.

(** ** The whole run *)

(** The strings of the four parts, in the order [main] calls the
    generators. *)
Definition syntax_chunks (o p fn : string) (d : Variables) : list string :=
  DataList_chunks o d ++ VariableLabels_chunks d ++ ValueLabels_chunks d
    ++ [SaveToSPSS_chunk p fn].

(** The input path and the base name of the output, as [main] computes
    them. *)
Definition input_of (w : World) : string := nth 1 (Args w) "".

Definition fn_of (w : World) : string :=
  strings_Trim w (path_Base w (input_of w)) (path_Ext w (input_of w)).

Definition sps_path (w : World) : string :=
  path_Dir w (input_of w) ++ "/" ++ fn_of w ++ ".sps".

(** ** More sample worlds *)

Module Scene.

(** A file on which the third write fails after three bytes. *)
Definition third_write_fails : File :=
  {| contents := [];
     pending := [None; None;
                 Some {| fault_err := Sample.disk_full; fault_written := 3 |}] |}.

Definition not_found : error :=
  mkError "open C:/MySurvey.xml: no such file or directory".

Definition denied : error :=
  mkError "open C:/MySurvey.sps: permission denied".

(** A world around [C:/MySurvey.xml] from the outcome of opening the input,
    of creating the output and of decoding. *)
Definition world (args : list string) (opened : error + XmlFile)
           (created : error + File) (decoded : Variables * option error) : World :=
  {| Args := args;
     os_Open := fun _ => opened;
     os_Create := fun _ => created;
     xml_Unmarshal := fun _ _ => decoded;
     path_Base := fun _ => "MySurvey.xml";
     path_Ext := fun _ => ".xml";
     path_Dir := fun _ => "C:";
     strings_Trim := fun _ _ => "MySurvey" |}.

Definition args : list string := ["xmltosps"; "C:/MySurvey.xml"; "C:/MySurvey.asc"].

Definition xml : XmlFile := {| xml_bytes := "<sss>...</sss>"; xml_read_err := None |}.

Definition good : World := world args (inr xml) (inr empty_file) (Sample.doc, None).

Definition no_args : World := world ["xmltosps"] (inr xml) (inr empty_file) (Sample.doc, None).

Definition no_input : World := world args (inl not_found) (inr empty_file) (Sample.doc, None).

Definition no_output : World := world args (inr xml) (inl denied) (Sample.doc, None).

Definition disk_fills : World :=
  world args (inr xml) (inr third_write_fails) (Sample.doc, None).

(** [Q3] with another label and other columns, and a [single] variable
    without coded values. *)
Definition Q3' := Sample.var "single" "Q3" "Sex" 30 30 [(1, "Male"); (2, "Female")].
Definition Q7 := Sample.var "single" "Q7" "Region" 16 16 [].

End Scene.

(** ** The blocks as the specification words them *)

(** Written from the specification (4.2, 4.3 and 4.5), with no use of the
    definitions taken from the code, to be compared with them. *)
Module Worded.

(** The alignment marker of the text-formatted types. *)
Definition text_marker (t : string) : string :=
  if ((t =? "character") || (t =? "time") || (t =? "date"))%string then " (A)" else "".

(** The elements of a list with their zero-based index. *)
Definition indexed {A} (l : list A) : list (int * A) :=
  combine (map Z.of_nat (seq 0 (List.length l))) l.

(** The layout entries of a variable: for the [multiple] type one entry per
    coded value, named [name#code], over the one column [start+i]; for every
    other type one entry, [name start-finish marker]. *)
Definition layout_entries (v : Variable_) : list string :=
  if (Type_ v =? "multiple")%string then
    map (fun ic =>
           layout_entry
             (Name v ++ "#" ++ fmt_d (Value (snd ic)))
             (fmt_d (int_add (Start (Position v)) (fst ic)) ++ "-"
                ++ fmt_d (int_add (Start (Position v)) (fst ic))))
        (indexed (Vals v))
  else
    [layout_entry (Name v)
       (fmt_d (Start (Position v)) ++ "-" ++ fmt_d (Finish (Position v))
          ++ text_marker (Type_ v))].

(** The two counts of the guarantee of 4.3. *)
Definition non_multiple_variables (l : list Variable_) : nat :=
  List.length (filter (fun v => negb (Type_ v =? "multiple")%string) l).

Definition coded_values_of_multiples (l : list Variable_) : nat :=
  list_sum (map (fun v => List.length (Vals v))
                (filter (fun v => (Type_ v =? "multiple")%string) l)).

(** The first and the last string of a section of the value-label block. *)
Definition section_head (name : string) : string := TAB ++ name ++ NL.

Definition closed (last : string) : string := last ++ "/".

(** A section of the value-label block for [name]: the strings written start
    with the line of the name and end with the block separator. *)
Definition section (name : string) (written : list string) : Prop :=
  exists body last, written = section_head name :: body ++ [closed last].

(** The section name of a coded value of a [multiple] variable. *)
Definition sub_field (v : Variable_) (mult : Val) : string :=
  Name v ++ "#" ++ fmt_d (Value mult).

End Worded.

(** * Proofs *)

(** ** Statements up to the files they are run on *)

Definition geq (a b : Gen) : Prop := forall f, a f = b f.

Infix "=g" := geq (at level 70, no associativity).

#[local] Instance geq_Equivalence : Equivalence geq.
Proof.
  split.
  - intros a f; reflexivity.
  - intros a b H f; symmetry; apply H.
  - intros a b c H1 H2 f; rewrite H1; apply H2.
Qed.

#[local] Instance andThen_Proper : Proper (geq ==> geq ==> geq) andThen.
Proof.
  intros a a' Ha b b' Hb f. unfold andThen.
  rewrite Ha. destruct (a' f) as [f' [e|]]; [reflexivity | apply Hb].
Qed.

Lemma andThen_assoc (a b c : Gen) : (a ;; b) ;; c =g a ;; (b ;; c).
Proof.
  intro f. unfold andThen.
  destruct (a f) as [f1 [e|]]; reflexivity.
Qed.

Lemma ret_nil_left (a : Gen) : ret_nil ;; a =g a.
Proof. intro f; reflexivity. Qed.

Lemma ret_nil_right (a : Gen) : a ;; ret_nil =g a.
Proof.
  intro f. unfold andThen, ret_nil.
  destruct (a f) as [f1 [e|]]; reflexivity.
Qed.

Lemma for_range_app {A} (body : A -> Gen) (l1 l2 : list A) :
  for_range body (l1 ++ l2) =g for_range body l1 ;; for_range body l2.
Proof.
  induction l1 as [|x l1 IH]; simpl.
  - symmetry; apply ret_nil_left.
  - rewrite IH. symmetry; apply andThen_assoc.
Qed.

Lemma write_all_app (l1 l2 : list string) :
  write_all (l1 ++ l2) =g write_all l1 ;; write_all l2.
Proof. apply for_range_app. Qed.

Lemma write_all_one (s : string) : WriteString s =g write_all [s].
Proof. unfold write_all; simpl. symmetry; apply ret_nil_right. Qed.

(** A loop whose body writes the strings [ch x] writes them for each element
    in turn. *)
Lemma for_range_chunks {A} (body : A -> Gen) (ch : A -> list string) :
  (forall x, body x =g write_all (ch x)) ->
  forall l, for_range body l =g write_all (flat_map ch l).
Proof.
  intros Hbody l. induction l as [|x l IH]; simpl.
  - reflexivity.
  - rewrite Hbody, IH. symmetry; apply write_all_app.
Qed.

Lemma for_range_map {A B} (g : A -> B) (body : B -> Gen) (l : list A) :
  for_range body (map g l) = for_range (fun x => body (g x)) l.
Proof. induction l as [|x l IH]; simpl; [|rewrite IH]; reflexivity. Qed.

Lemma for_range_writes {A} (line : A -> string) (l : list A) :
  for_range (fun x => WriteString (line x)) l = write_all (map line l).
Proof. unfold write_all. rewrite for_range_map. reflexivity. Qed.

(** ** Each generator writes its list *)

Lemma DataList_body_chunks (v : Variable_) :
  DataList_body v =g write_all (layout_chunks v).
Proof.
  unfold DataList_body, layout_chunks, for_range_i.
  destruct (negb (is_multiple v)).
  - apply write_all_one.
  - rewrite (for_range_writes (fun ix => layout_line_mult v (fst ix) (snd ix))).
    reflexivity.
Qed.

Lemma VariableLabels_body_chunks (v : Variable_) :
  VariableLabels_body v =g write_all (label_chunks v).
Proof.
  unfold VariableLabels_body, label_chunks.
  destruct (negb (is_multiple v)).
  - apply write_all_one.
  - rewrite for_range_writes. reflexivity.
Qed.

Lemma ValueLabels_body_chunks (v : Variable_) :
  ValueLabels_body v =g write_all (value_chunks v).
Proof.
  unfold ValueLabels_body, value_chunks.
  destruct (Type_ v =? "single")%string.
  - rewrite for_range_writes, !write_all_one.
    rewrite <- !write_all_app. reflexivity.
  - destruct (Type_ v =? "multiple")%string.
    + apply for_range_chunks. intro mult.
      rewrite !write_all_one, <- write_all_app. reflexivity.
    + destruct (Type_ v =? "logical")%string.
      * rewrite !write_all_one, <- write_all_app. reflexivity.
      * reflexivity.
Qed.

Lemma DataList_writes (o : string) (f : File) (d : Variables) :
  DataList o f d = write_all (DataList_chunks o d) f.
Proof.
  unfold DataList, DataList_chunks, DataList_header, DataList_trailer.
  generalize f. change (forall f0, ?a f0 = ?b f0) with (a =g b).
  rewrite ret_nil_right.
  rewrite (for_range_chunks _ _ DataList_body_chunks), !write_all_one.
  rewrite <- !write_all_app. reflexivity.
Qed.

Lemma VariableLabels_writes (f : File) (d : Variables) :
  VariableLabels f d = write_all (VariableLabels_chunks d) f.
Proof.
  unfold VariableLabels, VariableLabels_chunks.
  generalize f. change (forall f0, ?a f0 = ?b f0) with (a =g b).
  rewrite ret_nil_right.
  rewrite (for_range_chunks _ _ VariableLabels_body_chunks), !write_all_one.
  rewrite <- !write_all_app. reflexivity.
Qed.

Lemma ValueLabels_writes (f : File) (d : Variables) :
  ValueLabels f d = write_all (ValueLabels_chunks d) f.
Proof.
  unfold ValueLabels, ValueLabels_chunks.
  generalize f. change (forall f0, ?a f0 = ?b f0) with (a =g b).
  rewrite ret_nil_right.
  rewrite (for_range_chunks _ _ ValueLabels_body_chunks), !write_all_one.
  rewrite <- !write_all_app. reflexivity.
Qed.

(** ** Writing to a file on which nothing fails *)

Lemma no_faults_tail (x : option Fault) (p : list (option Fault)) (c c' : list string) :
  no_faults {| contents := c; pending := x :: p |} ->
  x = None /\ no_faults {| contents := c'; pending := p |}.
Proof. unfold no_faults; simpl. intro H. inversion H; subst. split; auto. Qed.

Lemma write_all_no_faults (l : list string) (f : File) :
  no_faults f -> write_all l f = (emit l f, None).
Proof.
  revert f. induction l as [|s l IH]; intros [c p] Hf.
  - unfold emit; simpl. rewrite app_nil_r. reflexivity.
  - unfold write_all; simpl. unfold andThen, WriteString; simpl.
    destruct p as [|x p].
    + fold (write_all l). rewrite IH by constructor.
      unfold emit; simpl. rewrite <- app_assoc, skipn_nil. reflexivity.
    + apply (no_faults_tail _ _ _ (c ++ [s])) in Hf. destruct Hf as [-> Hp].
      fold (write_all l). rewrite IH by exact Hp.
      unfold emit; simpl. rewrite <- app_assoc. reflexivity.
Qed.

Lemma no_faults_emit (l : list string) (f : File) :
  no_faults f -> no_faults (emit l f).
Proof.
  unfold no_faults, emit; simpl. intro H.
  rewrite Forall_forall in *. intros x Hx. apply H.
  rewrite <- (firstn_skipn (List.length l) (pending f)).
  apply in_or_app; right; exact Hx.
Qed.

Lemma no_faults_empty : no_faults empty_file.
Proof. constructor. Defined.

Lemma emitted_write_all (g : Gen) (l : list string) :
  g =g write_all l -> emitted g = l.
Proof.
  intro H. unfold emitted. rewrite H, write_all_no_faults by apply no_faults_empty.
  reflexivity.
Qed.

(** ** Writing to a file on which the write number [k] fails *)

Lemma write_all_cons (s : string) (l : list string) :
  write_all (s :: l) = (WriteString s ;; write_all l).
Proof. reflexivity. Qed.

Lemma write_all_fault (l : list string) (k : nat) (ft : Fault)
      (rest : list (option Fault)) (f : File) :
  pending f = (repeat None k ++ Some ft :: rest)%list ->
  (k < List.length l)%nat ->
  write_all l f
  = ({| contents := contents f ++ firstn k l
                      ++ [substring 0 (fault_written ft) (nth k l "")];
        pending := rest |}, Some (fault_err ft)).
Proof.
  revert k f. induction l as [|s l IH]; intros k [c p] Hp Hk; simpl in *.
  - lia.
  - rewrite write_all_cons. unfold andThen, WriteString.
    destruct k as [|k]; simpl in Hp; subst p; simpl.
    + reflexivity.
    + rewrite (IH k); [| reflexivity | lia].
      simpl. rewrite <- app_assoc. reflexivity.
Qed.

Lemma run_no_faults (r : File * option error) (l : list string) (f : File) :
  no_faults f -> r = write_all l f ->
  snd r = None /\ contents (fst r) = (contents f ++ l)%list.
Proof.
  intros Hf ->. rewrite write_all_no_faults by exact Hf. split; reflexivity.
Qed.

Lemma emit_emit (l1 l2 : list string) (f : File) :
  emit l2 (emit l1 f) = emit (l1 ++ l2) f.
Proof.
  unfold emit; simpl.
  rewrite skipn_skipn, length_app, <- app_assoc, Nat.add_comm. reflexivity.
Qed.

(** ** Indices of a [range] loop *)

Lemma enumerate_length {A} (from : int) (l : list A) :
  List.length (enumerate from l) = List.length l.
Proof.
  revert from. induction l as [|x l IH]; intro from; simpl; [|rewrite IH]; reflexivity.
Qed.

Lemma enumerate_nth_error {A} (l : list A) (from : int) (i : nat) (x : A) :
  nth_error l i = Some x ->
  nth_error (enumerate from l) i = Some (from + Z.of_nat i, x).
Proof.
  revert from i. induction l as [|y l IH]; intros from [|i] H;
    try discriminate H.
  - injection H as ->. simpl. rewrite Z.add_0_r. reflexivity.
  - change (nth_error (enumerate (from + 1) l) i = Some (from + Z.of_nat (S i), x)).
    rewrite (IH (from + 1) i H), Nat2Z.inj_succ. do 2 f_equal. lia.
Qed.

Lemma int_add_exact (a b : int) : in_int (a + b) -> int_add a b = a + b.
Proof.
  unfold in_int, int_add, wrap, int_min, int_max.
  change (2 ^ 64) with 18446744073709551616.
  change (2 ^ 63) with 9223372036854775808.
  intro H. rewrite Z.mod_small by lia. lia.
Qed.

(** ** What one variable adds to each block *)

Lemma emitted_DataList_body (v : Variable_) :
  emitted (DataList_body v) = layout_chunks v.
Proof. apply emitted_write_all, DataList_body_chunks. Qed.

Lemma emitted_VariableLabels_body (v : Variable_) :
  emitted (VariableLabels_body v) = label_chunks v.
Proof. apply emitted_write_all, VariableLabels_body_chunks. Qed.

Lemma emitted_ValueLabels_body (v : Variable_) :
  emitted (ValueLabels_body v) = value_chunks v.
Proof. apply emitted_write_all, ValueLabels_body_chunks. Qed.

Lemma layout_chunks_length (v : Variable_) :
  List.length (layout_chunks v)
  = if is_multiple v then List.length (Vals v) else 1%nat.
Proof.
  unfold layout_chunks. destruct (is_multiple v); simpl.
  - rewrite length_map. apply enumerate_length.
  - reflexivity.
Qed.

(** ** The layout block *)

Lemma append_assoc (a b c : string) : (a ++ b) ++ c = a ++ b ++ c.
Proof. induction a as [|x a IH]; simpl; [|rewrite IH]; reflexivity. Qed.

Lemma enumerate_seq {A} (l : list A) (k : nat) :
  enumerate (Z.of_nat k) l = combine (map Z.of_nat (seq k (List.length l))) l.
Proof.
  revert k. induction l as [|x l IH]; intro k; simpl.
  - reflexivity.
  - rewrite <- IH, Nat2Z.inj_succ, Z.add_1_r. reflexivity.
Qed.

Lemma VarType_text_marker (v : Variable_) :
  VarType v = Worded.text_marker (Type_ v).
Proof.
  unfold VarType, Worded.text_marker.
  destruct (Type_ v =? "character")%string, (Type_ v =? "time")%string,
    (Type_ v =? "date")%string; reflexivity.
Qed.

(** The entries [DataList] writes for a variable are those the specification
    words. *)
Lemma layout_chunks_worded (v : Variable_) :
  layout_chunks v = Worded.layout_entries v.
Proof.
  unfold layout_chunks, Worded.layout_entries, is_multiple.
  destruct (Type_ v =? "multiple")%string; cbn [negb].
  - unfold Worded.indexed. rewrite <- (enumerate_seq (Vals v) 0).
    apply map_ext. intros [i mult]. cbn [fst snd].
    unfold layout_line_mult, layout_entry. rewrite !append_assoc. reflexivity.
  - unfold layout_line, layout_entry.
    rewrite VarType_text_marker, !append_assoc. reflexivity.
Qed.

Lemma worded_entries_length (v : Variable_) :
  List.length (Worded.layout_entries v)
  = if (Type_ v =? "multiple")%string then List.length (Vals v) else 1%nat.
Proof.
  unfold Worded.layout_entries, Worded.indexed.
  destruct (Type_ v =? "multiple")%string.
  - rewrite length_map, length_combine, length_map, length_seq. apply Nat.min_id.
  - reflexivity.
Qed.

Lemma worded_entries_total (l : list Variable_) :
  List.length (flat_map Worded.layout_entries l)
  = (Worded.non_multiple_variables l + Worded.coded_values_of_multiples l)%nat.
Proof.
  unfold Worded.non_multiple_variables, Worded.coded_values_of_multiples.
  induction l as [|v l IH].
  - reflexivity.
  - cbn [flat_map filter]. rewrite length_app, worded_entries_length, IH.
    destruct (Type_ v =? "multiple")%string; simpl; lia.
Qed.

(** C4. For every document, written to a file on which no write fails,
    [DataList] returns [nil] and adds to the file its two header strings, then
    the entries of each variable in document order, then the terminator. The
    entries of a variable are those of the specification: for a variable
    whose type is not [multiple] the one entry [name start-finish marker],
    for a [multiple] variable one entry [name#code start+i-start+i] per coded
    value, so exactly as many as it has coded values. The number of entries
    is the number of variables whose type is not [multiple] plus the sum of
    the numbers of coded values of the [multiple] ones. *)
Theorem DataList_entry_count (o : string) (f : File) (d : Variables) :
  no_faults f ->
  snd (DataList o f d) = None /\
  contents (fst (DataList o f d))
  = (contents f ++ DataList_header o
       ++ flat_map Worded.layout_entries (Variable' d)
       ++ [DataList_trailer])%list /\
  (forall v, Type_ v <> "multiple" ->
             Worded.layout_entries v
             = [layout_entry (Name v)
                  (fmt_d (Start (Position v)) ++ "-" ++ fmt_d (Finish (Position v))
                     ++ Worded.text_marker (Type_ v))]) /\
  (forall v, Type_ v = "multiple" ->
             List.length (Worded.layout_entries v) = List.length (Vals v)) /\
  List.length (flat_map Worded.layout_entries (Variable' d))
  = (List.length (filter (fun v => negb (Type_ v =? "multiple")%string) (Variable' d))
     + list_sum (map (fun v => List.length (Vals v))
                     (filter (fun v => (Type_ v =? "multiple")%string) (Variable' d))))%nat.
Proof.
  intro Hf.
  destruct (run_no_faults _ _ _ Hf (DataList_writes o f d)) as [Herr Hc].
  split; [exact Herr|]. split; [|split; [|split]].
  - rewrite Hc. unfold DataList_chunks.
    rewrite (flat_map_ext _ _ layout_chunks_worded). reflexivity.
  - intros v Hty. apply String.eqb_neq in Hty.
    unfold Worded.layout_entries. rewrite Hty. reflexivity.
  - intros v Hty. apply String.eqb_eq in Hty.
    rewrite worded_entries_length, Hty. reflexivity.
  - apply worded_entries_total.
Qed.

Lemma DataList_entry_count_witness :
  contents (fst (DataList "C:/MySurvey.asc" empty_file Sample.survey))
  = [ "FILE HANDLE longdata" ++ NL ++ "/NAME=" ++ DQ ++ "C:/MySurvey.asc" ++ DQ
        ++ "." ++ NL;
      "DATA LIST FILE=longdata" ++ NL ++ "/";
      TAB ++ "Q1" ++ TAB ++ "1-5 (A)" ++ NL;
      TAB ++ "Q2#1" ++ TAB ++ "6-6" ++ NL;
      TAB ++ "Q2#2" ++ TAB ++ "7-7" ++ NL;
      TAB ++ "Q3" ++ TAB ++ "8-8" ++ NL;
      TAB ++ "Q4" ++ TAB ++ "9-9" ++ NL;
      TAB ++ "Q6" ++ TAB ++ "13-15" ++ NL;
      "." ++ NL ++ NL ] /\
  List.length (flat_map Worded.layout_entries (Variable' Sample.survey))
  = (4 + 2)%nat.
Proof.
  pose proof (DataList_entry_count "C:/MySurvey.asc" empty_file Sample.survey
                no_faults_empty) as [_ [Hc [_ [_ Hn]]]].
  split; [exact Hc | exact Hn].
Defined.

(** C3. For every [multiple] variable [v] of a document, written to a file on
    which no write fails, [DataList] adds one line per coded value of [v] at
    the place of [v]; the line of the coded value at index [i] is named
    [name#code] with that coded value's code, and its columns are [S+i] to
    [S+i], [S] the declared start column and [+] the addition of [int]; the
    declared finish column does not occur. The addition of [int] is the exact
    sum as long as the sum is an [int]. *)
Theorem DataList_multiple_columns (o : string) (f : File) (d : Variables)
        (pre post : list Variable_) (v : Variable_) :
  no_faults f ->
  Variable' d = (pre ++ v :: post)%list ->
  Type_ v = "multiple" ->
  snd (DataList o f d) = None /\
  contents (fst (DataList o f d))
  = (contents f ++ DataList_header o
       ++ flat_map layout_chunks pre
       ++ emitted (DataList_body v)
       ++ flat_map layout_chunks post
       ++ [DataList_trailer])%list /\
  List.length (emitted (DataList_body v)) = List.length (Vals v) /\
  forall (i : nat) (mult : Val),
    nth_error (Vals v) i = Some mult ->
    nth_error (emitted (DataList_body v)) i
    = Some (TAB ++ Name v ++ "#" ++ fmt_d (Value mult) ++ TAB
                ++ fmt_d (int_add (Start (Position v)) (Z.of_nat i)) ++ "-"
                ++ fmt_d (int_add (Start (Position v)) (Z.of_nat i)) ++ NL) /\
    (in_int (Start (Position v) + Z.of_nat i) ->
     int_add (Start (Position v)) (Z.of_nat i) = Start (Position v) + Z.of_nat i).
Proof.
  intros Hf Hd Hty.
  assert (Hm : is_multiple v = true) by (apply String.eqb_eq; exact Hty).
  destruct (run_no_faults _ _ _ Hf (DataList_writes o f d)) as [Herr Hc].
  rewrite emitted_DataList_body.
  repeat split.
  - exact Herr.
  - rewrite Hc. unfold DataList_chunks. rewrite Hd, flat_map_app. simpl.
    rewrite <- !app_assoc. reflexivity.
  - rewrite layout_chunks_length, Hm. reflexivity.
  - unfold layout_chunks. rewrite Hm. simpl.
    rewrite nth_error_map, (enumerate_nth_error _ _ _ _ H). reflexivity.
  - apply int_add_exact.
Qed.

Lemma DataList_multiple_columns_witness :
  nth_error (emitted (DataList_body Sample.Q2)) 1
  = Some (TAB ++ "Q2#2" ++ TAB ++ "7-7" ++ NL) /\
  int_add (Start (Position Sample.Q2)) 1 = 6 + 1.
Proof.
  pose proof (proj2 (proj2 (proj2
    (DataList_multiple_columns "C:/MySurvey.asc" empty_file Sample.doc
       [Sample.Q1] [] Sample.Q2 no_faults_empty eq_refl eq_refl)))
    1%nat {| Value := 2; VName := "Blue" |} eq_refl) as [Hline Hsum].
  split; [exact Hline|].
  apply Hsum. unfold in_int. split; discriminate.
Defined.

(** Beyond the largest [int] the sum of [int] wraps: a start column at
    [int_max] puts the second indicator at [int_min]. *)
Remark int_add_wraps : int_add int_max 1 = int_min.
Proof. reflexivity. Qed.

(** ** The variable-label block *)

Lemma layout_chunks_names (v : Variable_) :
  layout_chunks v
  = map (fun ns => layout_entry (fst ns) (snd ns))
        (combine (entry_names v) (entry_spans v)).
Proof.
  unfold layout_chunks, entry_names, entry_spans, layout_line, layout_line_mult,
    layout_entry.
  destruct (is_multiple v); cbn [negb].
  - generalize 0. induction (Vals v) as [|m l IH]; intro from.
    + reflexivity.
    + cbn [enumerate map combine fst snd]. rewrite IH, !append_assoc. reflexivity.
  - cbn [map combine fst snd]. rewrite !append_assoc. reflexivity.
Qed.

Lemma label_chunks_names (v : Variable_) :
  label_chunks v
  = map (label_entry (Label v)) (entry_names v).
Proof.
  unfold label_chunks, entry_names, label_line, label_line_mult, label_entry.
  destruct (is_multiple v); cbn [negb].
  - rewrite map_map. apply map_ext. intro m.
    rewrite !append_assoc. reflexivity.
  - reflexivity.
Qed.

Lemma entry_spans_length (v : Variable_) :
  List.length (entry_spans v) = List.length (entry_names v).
Proof.
  unfold entry_spans, entry_names. destruct (is_multiple v); simpl.
  - rewrite !length_map. apply enumerate_length.
  - reflexivity.
Qed.

(** C8. For every document, written to files on which no write fails: the
    layout block has, for each variable in document order, one entry per name
    of [entry_names] (the plain name of a variable that is not [multiple],
    [name#code] for each coded value of a [multiple] one), each with its
    columns; the variable-label block has, for each variable in document
    order, one label assignment per name of the same list, and every one of
    them pairs the name with the variable's label, also for every sub-field of
    a [multiple] variable. *)
Theorem VariableLabels_follow_layout (o : string) (fl fv : File) (d : Variables) :
  no_faults fl -> no_faults fv ->
  (snd (DataList o fl d) = None /\
   contents (fst (DataList o fl d))
   = (contents fl ++ DataList_header o
        ++ flat_map (fun v => map (fun ns => layout_entry (fst ns) (snd ns))
                                  (combine (entry_names v) (entry_spans v)))
                    (Variable' d)
        ++ [DataList_trailer])%list) /\
  (snd (VariableLabels fv d) = None /\
   contents (fst (VariableLabels fv d))
   = (contents fv ++ [VariableLabels_header]
        ++ flat_map (fun v => map (label_entry (Label v)) (entry_names v))
                    (Variable' d)
        ++ [VariableLabels_trailer])%list) /\
  (forall v,
      List.length (entry_spans v) = List.length (entry_names v) /\
      entry_names v
      = if (Type_ v =? "multiple")%string
        then map (fun mult => Name v ++ "#" ++ fmt_d (Value mult)) (Vals v)
        else [Name v]).
Proof.
  intros Hl Hv.
  destruct (run_no_faults _ _ _ Hl (DataList_writes o fl d)) as [El Cl].
  destruct (run_no_faults _ _ _ Hv (VariableLabels_writes fv d)) as [Ev Cv].
  repeat split.
  - exact El.
  - rewrite Cl. unfold DataList_chunks.
    rewrite (flat_map_ext _ _ layout_chunks_names). reflexivity.
  - exact Ev.
  - rewrite Cv. unfold VariableLabels_chunks.
    rewrite (flat_map_ext _ _ label_chunks_names). reflexivity.
  - apply entry_spans_length.
Qed.

Lemma VariableLabels_follow_layout_witness :
  contents (fst (VariableLabels empty_file Sample.doc))
  = [ "VARIABLE LABELS" ++ NL;
      TAB ++ "Q1" ++ TAB ++ DQ ++ "Question 1" ++ DQ ++ NL;
      TAB ++ "Q2#1" ++ TAB ++ DQ ++ "Multi" ++ DQ ++ NL;
      TAB ++ "Q2#2" ++ TAB ++ DQ ++ "Multi" ++ DQ ++ NL;
      "." ++ NL ++ "EXECUTE." ++ NL ++ NL ++ NL ].
Proof.
  exact (proj2 (proj1 (proj2
    (VariableLabels_follow_layout "C:/MySurvey.asc" empty_file empty_file Sample.doc
       no_faults_empty no_faults_empty)))).
Defined.

(** ** A [multiple] variable without coded values *)

(** C10. A [multiple] variable whose list of coded values is empty adds
    nothing to any of the three blocks: on every file, also one on which
    writes fail, each generator does on a document that holds the variable
    what it does on the document without it, and the variable by itself
    makes none of them write. *)
Theorem empty_multiple_disappears (o : string) (f : File)
        (pre post : list Variable_) (v : Variable_) :
  Type_ v = "multiple" ->
  Vals v = [] ->
  (emitted (DataList_body v) = [] /\
   emitted (VariableLabels_body v) = [] /\
   emitted (ValueLabels_body v) = []) /\
  DataList o f {| Variable' := pre ++ v :: post |}
  = DataList o f {| Variable' := pre ++ post |} /\
  VariableLabels f {| Variable' := pre ++ v :: post |}
  = VariableLabels f {| Variable' := pre ++ post |} /\
  ValueLabels f {| Variable' := pre ++ v :: post |}
  = ValueLabels f {| Variable' := pre ++ post |}.
Proof.
  intros Hty Hvals.
  assert (Hm : is_multiple v = true) by (apply String.eqb_eq; exact Hty).
  assert (L : layout_chunks v = []).
  { unfold layout_chunks. rewrite Hm, Hvals. reflexivity. }
  assert (B : label_chunks v = []).
  { unfold label_chunks. rewrite Hm, Hvals. reflexivity. }
  assert (V : value_chunks v = []).
  { unfold value_chunks. rewrite Hty, Hvals. reflexivity. }
  rewrite emitted_DataList_body, emitted_VariableLabels_body, emitted_ValueLabels_body.
  repeat split; try assumption.
  - rewrite !DataList_writes. unfold DataList_chunks; simpl Variable'.
    rewrite !flat_map_app. simpl flat_map. rewrite L. reflexivity.
  - rewrite !VariableLabels_writes. unfold VariableLabels_chunks; simpl Variable'.
    rewrite !flat_map_app. simpl flat_map. rewrite B. reflexivity.
  - rewrite !ValueLabels_writes. unfold ValueLabels_chunks; simpl Variable'.
    rewrite !flat_map_app. simpl flat_map. rewrite V. reflexivity.
Qed.

Lemma empty_multiple_disappears_witness :
  DataList "C:/MySurvey.asc" empty_file {| Variable' := [Sample.Q1] ++ Sample.Q5 :: [Sample.Q6] |}
  = DataList "C:/MySurvey.asc" empty_file {| Variable' := [Sample.Q1] ++ [Sample.Q6] |}.
Proof.
  exact (proj1 (proj2
    (empty_multiple_disappears "C:/MySurvey.asc" empty_file [Sample.Q1] [Sample.Q6]
       Sample.Q5 eq_refl eq_refl))).
Defined.

(** ** The value-label block *)

(** The block around the section of one variable of the document. *)
Lemma ValueLabels_around (f : File) (d : Variables)
      (pre post : list Variable_) (v : Variable_) :
  no_faults f ->
  Variable' d = (pre ++ v :: post)%list ->
  snd (ValueLabels f d) = None /\
  contents (fst (ValueLabels f d))
  = (contents f ++ [ValueLabels_header]
       ++ flat_map value_chunks pre
       ++ value_chunks v
       ++ flat_map value_chunks post
       ++ [ValueLabels_trailer])%list.
Proof.
  intros Hf Hd.
  destruct (run_no_faults _ _ _ Hf (ValueLabels_writes f d)) as [Herr Hc].
  split; [exact Herr|].
  rewrite Hc. unfold ValueLabels_chunks. rewrite Hd, flat_map_app. simpl.
  rewrite <- !app_assoc. reflexivity.
Qed.

(** C1 at [Q3]: the label lines of the [single] variable [Q3] (label
    [Gender], coded values 1 and 2) do not carry its label, as the claim has
    it. *)
Lemma single_section_label_counterexample :
  Type_ Sample.Q3 = "single" /\ Vals Sample.Q3 <> [] /\
  ~ Spec.single_section_uses_label Sample.Q3.
Proof.
  split; [reflexivity|]. split; [discriminate|].
  intros [rest H]. vm_compute in H. discriminate H.
Qed.

(** C1, what the code does. For every [single] variable [v] of a document
    with a non-empty list of coded values, written to a file on which no write
    fails, [ValueLabels] adds at the place of [v] the name of [v], then one
    label line per coded value, in order, then the separator; each label line
    pairs the code of its coded value with [v.Name], the text the format of
    line 144 is given: the label of [v], which the claim asks for, does not
    occur, and neither does the text of the coded value, which the loop
    variable holds and the [multiple] branch prints. *)
Theorem ValueLabels_single_uses_name (f : File) (d : Variables)
        (pre post : list Variable_) (v : Variable_) :
  no_faults f ->
  Variable' d = (pre ++ v :: post)%list ->
  Type_ v = "single" ->
  Vals v <> [] ->
  snd (ValueLabels f d) = None /\
  contents (fst (ValueLabels f d))
  = (contents f ++ [ValueLabels_header]
       ++ flat_map value_chunks pre
       ++ emitted (ValueLabels_body v)
       ++ flat_map value_chunks post
       ++ [ValueLabels_trailer])%list /\
  emitted (ValueLabels_body v)
  = ([section_name (Name v)]
       ++ map (fun vs => label_line_of (Value vs) (Name v)) (Vals v)
       ++ ["/"])%list.
Proof.
  intros Hf Hd Hty _.
  rewrite emitted_ValueLabels_body.
  destruct (ValueLabels_around f d pre post v Hf Hd) as [Herr Hc].
  repeat split; [exact Herr | exact Hc |].
  unfold value_chunks. rewrite Hty. reflexivity.
Qed.

Lemma ValueLabels_single_uses_name_witness :
  emitted (ValueLabels_body Sample.Q3)
  = [ TAB ++ "Q3" ++ NL;
      TAB ++ TAB ++ "1 " ++ DQ ++ "Q3" ++ DQ ++ NL;
      TAB ++ TAB ++ "2 " ++ DQ ++ "Q3" ++ DQ ++ NL;
      "/" ].
Proof.
  exact (proj2 (proj2
    (ValueLabels_single_uses_name empty_file Sample.survey
       [Sample.Q1; Sample.Q2] [Sample.Q4; Sample.Q5; Sample.Q6] Sample.Q3
       no_faults_empty eq_refl eq_refl
       (fun H => @eq_ind (list Val) [] (fun l => match l with [] => True | _ => False end)
                         I _ (eq_sym H))))).
Defined.

(** C6. For every [logical] variable [v] of a document, whatever its list of
    coded values, written to a file on which no write fails, [ValueLabels]
    adds at the place of [v] the name of [v] and then exactly the two label
    lines [0 "False"] and [1 "True"], closed by the separator. *)
Theorem ValueLabels_logical_fixed (f : File) (d : Variables)
        (pre post : list Variable_) (v : Variable_) :
  no_faults f ->
  Variable' d = (pre ++ v :: post)%list ->
  Type_ v = "logical" ->
  snd (ValueLabels f d) = None /\
  contents (fst (ValueLabels f d))
  = (contents f ++ [ValueLabels_header]
       ++ flat_map value_chunks pre
       ++ emitted (ValueLabels_body v)
       ++ flat_map value_chunks post
       ++ [ValueLabels_trailer])%list /\
  emitted (ValueLabels_body v)
  = [ section_name (Name v);
      fixed_label_line 0 "False" ++ label_line_of 1 "True" ++ "/" ].
Proof.
  intros Hf Hd Hty.
  rewrite emitted_ValueLabels_body.
  destruct (ValueLabels_around f d pre post v Hf Hd) as [Herr Hc].
  repeat split; [exact Herr | exact Hc |].
  unfold value_chunks. rewrite Hty. reflexivity.
Qed.

Lemma ValueLabels_logical_fixed_witness :
  Vals Sample.Q4 <> [] /\
  emitted (ValueLabels_body Sample.Q4)
  = [ TAB ++ "Q4" ++ NL;
      TAB ++ TAB ++ "0" ++ DQ ++ "False" ++ DQ ++ NL
          ++ TAB ++ TAB ++ "1 " ++ DQ ++ "True" ++ DQ ++ NL ++ "/" ].
Proof.
  split; [discriminate|].
  exact (proj2 (proj2
    (ValueLabels_logical_fixed empty_file Sample.survey
       [Sample.Q1; Sample.Q2; Sample.Q3] [Sample.Q5; Sample.Q6] Sample.Q4
       no_faults_empty eq_refl eq_refl))).
Defined.

(** C7. For every [multiple] variable [v] of a document, written to a file on
    which no write fails, [ValueLabels] adds at the place of [v], for each
    coded value in order, a section named [name#code] that holds exactly the
    two label lines [0 "No"] and [1] with the text of that coded value, closed
    by the separator. *)
Theorem ValueLabels_multiple_sections (f : File) (d : Variables)
        (pre post : list Variable_) (v : Variable_) :
  no_faults f ->
  Variable' d = (pre ++ v :: post)%list ->
  Type_ v = "multiple" ->
  snd (ValueLabels f d) = None /\
  contents (fst (ValueLabels f d))
  = (contents f ++ [ValueLabels_header]
       ++ flat_map value_chunks pre
       ++ emitted (ValueLabels_body v)
       ++ flat_map value_chunks post
       ++ [ValueLabels_trailer])%list /\
  emitted (ValueLabels_body v)
  = flat_map (fun mult =>
                [ section_name (Name v ++ "#" ++ fmt_d (Value mult));
                  fixed_label_line 0 "No" ++ label_line_of 1 (VName mult) ++ "/" ])
             (Vals v).
Proof.
  intros Hf Hd Hty.
  rewrite emitted_ValueLabels_body.
  destruct (ValueLabels_around f d pre post v Hf Hd) as [Herr Hc].
  repeat split; [exact Herr | exact Hc |].
  unfold value_chunks. rewrite Hty. cbn [String.eqb Ascii.eqb Bool.eqb].
  apply flat_map_ext. intro mult.
  unfold section_name_mult, section_name, mult_lines, fixed_label_line, label_line_of.
  rewrite !append_assoc. reflexivity.
Qed.

Lemma ValueLabels_multiple_sections_witness :
  emitted (ValueLabels_body Sample.Q2)
  = [ TAB ++ "Q2#1" ++ NL;
      TAB ++ TAB ++ "0" ++ DQ ++ "No" ++ DQ ++ NL
          ++ TAB ++ TAB ++ "1 " ++ DQ ++ "Red" ++ DQ ++ NL ++ "/";
      TAB ++ "Q2#2" ++ NL;
      TAB ++ TAB ++ "0" ++ DQ ++ "No" ++ DQ ++ NL
          ++ TAB ++ TAB ++ "1 " ++ DQ ++ "Blue" ++ DQ ++ NL ++ "/" ].
Proof.
  exact (proj2 (proj2
    (ValueLabels_multiple_sections empty_file Sample.doc [Sample.Q1] [] Sample.Q2
       no_faults_empty eq_refl eq_refl))).
Defined.

(** C5, as the specification words it, fails: [Q5] is of type [multiple], a
    type that carries value labels, and has no section in the value-label
    block. *)
Lemma multiple_without_section_counterexample :
  Spec.labelled_type (Type_ Sample.Q5) /\ ~ Spec.has_value_section Sample.Q5.
Proof.
  split.
  - right; left; reflexivity.
  - intro H. apply H. reflexivity.
Qed.

Lemma value_chunks_nonempty (v : Variable_) :
  value_chunks v <> [] <->
  Type_ v = "single" \/ (Type_ v = "multiple" /\ Vals v <> []) \/ Type_ v = "logical".
Proof.
  unfold value_chunks.
  destruct (Type_ v =? "single")%string eqn:Es.
  - apply String.eqb_eq in Es. split; [left; exact Es | discriminate].
  - apply String.eqb_neq in Es.
    destruct (Type_ v =? "multiple")%string eqn:Em.
    + apply String.eqb_eq in Em. destruct (Vals v) as [|m l]; simpl.
      * split; [congruence|]. intros [H|[[_ H]|H]]; congruence.
      * split; [|discriminate]. intros _. right; left. split; [exact Em | discriminate].
    + apply String.eqb_neq in Em.
      destruct (Type_ v =? "logical")%string eqn:El.
      * apply String.eqb_eq in El. split; [auto | discriminate].
      * apply String.eqb_neq in El. split; [congruence|].
        intros [H|[[H _]|H]]; contradiction.
Qed.

Lemma single_is_section (v : Variable_) :
  Type_ v = "single" -> Worded.section (Name v) (value_chunks v).
Proof.
  intro Hty. unfold value_chunks. rewrite Hty. cbn [String.eqb Ascii.eqb Bool.eqb].
  exists (map (single_line v) (Vals v)), "". reflexivity.
Qed.

Lemma logical_is_section (v : Variable_) :
  Type_ v = "logical" -> Worded.section (Name v) (value_chunks v).
Proof.
  intro Hty. unfold value_chunks. rewrite Hty. cbn [String.eqb Ascii.eqb Bool.eqb].
  exists [], (fixed_label_line 0 "False" ++ label_line_of 1 "True"). reflexivity.
Qed.

Lemma multiple_sections (v : Variable_) :
  Type_ v = "multiple" ->
  exists sections,
    value_chunks v = List.concat sections /\
    Forall2 (fun mult written => Worded.section (Worded.sub_field v mult) written)
            (Vals v) sections.
Proof.
  intro Hty. unfold value_chunks. rewrite Hty. cbn [String.eqb Ascii.eqb Bool.eqb].
  exists (map (fun mult => [section_name_mult v mult; mult_lines mult]) (Vals v)).
  split; [apply flat_map_concat_map|].
  induction (Vals v) as [|mult l IH]; constructor; [|exact IH].
  exists [], (fixed_label_line 0 "No" ++ label_line_of 1 (VName mult)).
  unfold Worded.section_head, Worded.closed, Worded.sub_field, section_name_mult,
    mult_lines, fixed_label_line, label_line_of.
  rewrite !append_assoc. reflexivity.
Qed.

(** C5, amended. For every document, written to a file on which no write
    fails, the value-label block is its header, then what each variable adds,
    in document order, then its trailer. A variable of type [single] or
    [logical] adds one section under its name: the strings written start with
    the line of the name and end with the block separator. A variable of
    type [multiple] adds one such section per coded value, in order, under
    [name#code], hence nothing when it has no coded value. A variable of any
    other type adds nothing. *)
Theorem ValueLabels_sections_by_type (f : File) (d : Variables) :
  no_faults f ->
  snd (ValueLabels f d) = None /\
  contents (fst (ValueLabels f d))
  = (contents f ++ [ValueLabels_header]
       ++ flat_map (fun v => emitted (ValueLabels_body v)) (Variable' d)
       ++ [ValueLabels_trailer])%list /\
  (forall v,
      Type_ v = "single" \/ Type_ v = "logical" ->
      Worded.section (Name v) (emitted (ValueLabels_body v))) /\
  (forall v,
      Type_ v = "multiple" ->
      exists sections,
        emitted (ValueLabels_body v) = List.concat sections /\
        Forall2 (fun mult written => Worded.section (Worded.sub_field v mult) written)
                (Vals v) sections) /\
  (forall v,
      Type_ v = "multiple" -> Vals v = [] -> emitted (ValueLabels_body v) = []) /\
  (forall v, ~ Spec.labelled_type (Type_ v) -> emitted (ValueLabels_body v) = []).
Proof.
  intro Hf.
  destruct (run_no_faults _ _ _ Hf (ValueLabels_writes f d)) as [Herr Hc].
  rewrite (flat_map_ext _ _ emitted_ValueLabels_body).
  split; [exact Herr|]. split; [exact Hc|]. split; [|split; [|split]].
  - intros v [Hty|Hty]; rewrite emitted_ValueLabels_body.
    + apply single_is_section, Hty.
    + apply logical_is_section, Hty.
  - intros v Hty. rewrite emitted_ValueLabels_body. apply multiple_sections, Hty.
  - intros v Hty Hvals. rewrite emitted_ValueLabels_body.
    unfold value_chunks. rewrite Hty, Hvals. reflexivity.
  - intros v Hno. rewrite emitted_ValueLabels_body.
    destruct (value_chunks v) eqn:E; [reflexivity|]. exfalso. apply Hno.
    assert (N : value_chunks v <> []) by (rewrite E; discriminate).
    apply value_chunks_nonempty in N. unfold Spec.labelled_type. tauto.
Qed.

Lemma ValueLabels_sections_by_type_witness :
  contents (fst (ValueLabels empty_file
                   {| Variable' := [Sample.Q1; Sample.Q2; Sample.Q4; Sample.Q5;
                                    Sample.Q6; Scene.Q7] |}))
  = [ "VALUE LABELS" ++ NL;
      TAB ++ "Q2#1" ++ NL;
      TAB ++ TAB ++ "0" ++ DQ ++ "No" ++ DQ ++ NL
          ++ TAB ++ TAB ++ "1 " ++ DQ ++ "Red" ++ DQ ++ NL ++ "/";
      TAB ++ "Q2#2" ++ NL;
      TAB ++ TAB ++ "0" ++ DQ ++ "No" ++ DQ ++ NL
          ++ TAB ++ TAB ++ "1 " ++ DQ ++ "Blue" ++ DQ ++ NL ++ "/";
      TAB ++ "Q4" ++ NL;
      TAB ++ TAB ++ "0" ++ DQ ++ "False" ++ DQ ++ NL
          ++ TAB ++ TAB ++ "1 " ++ DQ ++ "True" ++ DQ ++ NL ++ "/";
      TAB ++ "Q7" ++ NL;
      "/";
      "EXECUTE." ++ NL ++ NL ] /\
  Worded.section "Q4" (emitted (ValueLabels_body Sample.Q4)) /\
  emitted (ValueLabels_body Sample.Q5) = [] /\
  emitted (ValueLabels_body Sample.Q6) = [].
Proof.
  pose proof (ValueLabels_sections_by_type empty_file
                {| Variable' := [Sample.Q1; Sample.Q2; Sample.Q4; Sample.Q5;
                                 Sample.Q6; Scene.Q7] |} no_faults_empty)
    as [_ [Hc [Hsec [_ [Hempty Hother]]]]].
  split; [exact Hc|]. split; [|split].
  - apply Hsec. right; reflexivity.
  - apply Hempty; reflexivity.
  - apply Hother. intros [H|[H|H]]; discriminate H.
Defined.

(** ** Writes that fail *)

(** The three block generators return the error of the first write that
    fails, as it is, and attempt no write after it: the file holds what the
    writes before it wrote and the part of the failed one, and the schedule
    of the file is consumed up to the failed write and no further. *)
Lemma DataList_returns_write_error (o : string) (d : Variables) (f : File)
      (k : nat) (ft : Fault) (rest : list (option Fault)) :
  pending f = (repeat None k ++ Some ft :: rest)%list ->
  (k < List.length (DataList_chunks o d))%nat ->
  DataList o f d
  = ({| contents := contents f ++ firstn k (DataList_chunks o d)
                      ++ [substring 0 (fault_written ft) (nth k (DataList_chunks o d) "")];
        pending := rest |}, Some (fault_err ft)).
Proof. intros Hp Hk. rewrite DataList_writes. apply write_all_fault; assumption. Qed.

(** The same for [VariableLabels]: the error of the first failed write is
    returned as it is, and nothing is written after it. *)
Lemma VariableLabels_returns_write_error (d : Variables) (f : File)
      (k : nat) (ft : Fault) (rest : list (option Fault)) :
  pending f = (repeat None k ++ Some ft :: rest)%list ->
  (k < List.length (VariableLabels_chunks d))%nat ->
  VariableLabels f d
  = ({| contents := contents f ++ firstn k (VariableLabels_chunks d)
                      ++ [substring 0 (fault_written ft) (nth k (VariableLabels_chunks d) "")];
        pending := rest |}, Some (fault_err ft)).
Proof. intros Hp Hk. rewrite VariableLabels_writes. apply write_all_fault; assumption. Qed.

(** The same for [ValueLabels]: the error of the first failed write is
    returned as it is, and nothing is written after it. *)
Lemma ValueLabels_returns_write_error (d : Variables) (f : File)
      (k : nat) (ft : Fault) (rest : list (option Fault)) :
  pending f = (repeat None k ++ Some ft :: rest)%list ->
  (k < List.length (ValueLabels_chunks d))%nat ->
  ValueLabels f d
  = ({| contents := contents f ++ firstn k (ValueLabels_chunks d)
                      ++ [substring 0 (fault_written ft) (nth k (ValueLabels_chunks d) "")];
        pending := rest |}, Some (fault_err ft)).
Proof. intros Hp Hk. rewrite ValueLabels_writes. apply write_all_fault; assumption. Qed.

(** C9, at the save directive. When the write of [SaveToSPSS] fails, the call
    does not return the error: [log.Fatalln] ends the process inside it, with
    the message of the error; and no call of [SaveToSPSS] returns an error to
    its caller. *)
Theorem SaveToSPSS_exits_on_write_error (p fn : string) (f : File)
        (ft : Fault) (rest : list (option Fault)) :
  pending f = Some ft :: rest ->
  SaveToSPSS p fn f
  = ({| contents := contents f
                      ++ [substring 0 (fault_written ft) (SaveToSPSS_chunk p fn)];
        pending := rest |}, Fatal (Error (fault_err ft) ++ NL)) /\
  forall (g : File) (e : error), snd (SaveToSPSS p fn g) <> Returned (Some e).
Proof.
  intro Hp. split.
  - unfold SaveToSPSS, WriteString. rewrite Hp. reflexivity.
  - intros g e. unfold SaveToSPSS.
    destruct (WriteString _ g) as [g' [err|]]; discriminate.
Qed.

Lemma SaveToSPSS_exits_on_write_error_witness :
  SaveToSPSS "C:" "MySurvey" Sample.full_disk
  = ({| contents := [""]; pending := [] |},
     Fatal ("write out.sps: no space left on device" ++ NL)).
Proof.
  exact (proj1
    (SaveToSPSS_exits_on_write_error "C:" "MySurvey" Sample.full_disk
       {| fault_err := Sample.disk_full; fault_written := 0 |} [] eq_refl)).
Defined.

(** ** The run on a document that does not parse *)

Lemma SaveToSPSS_no_faults (p fn : string) (f : File) :
  no_faults f ->
  SaveToSPSS p fn f = (emit [SaveToSPSS_chunk p fn] f, Returned None).
Proof.
  intro Hf. unfold SaveToSPSS. fold (SaveToSPSS_chunk p fn).
  rewrite (write_all_one (SaveToSPSS_chunk p fn) f), write_all_no_faults by exact Hf.
  reflexivity.
Qed.

(** Where the file does not open, the run is reported and aborted: the
    sibling of the parse step in [main]. *)
Lemma main_aborts_on_open_error (w : World) (err : error) :
  (3 <= List.length (Args w))%nat ->
  os_Open w (nth 1 (Args w) "") = inl err ->
  main w = Exit1 (Error err ++ NL) None.
Proof.
  intros Hargs Hopen. unfold main.
  apply Nat.ltb_ge in Hargs. rewrite Hargs, Hopen. reflexivity.
Qed.

(** C2, on the code. When the bytes of the input do not parse
    ([xml.Unmarshal] returns an error [e], having decoded [d] so far), and the
    files open and every write succeeds, [main] reports nothing and does not
    abort: it exits with status 0 after writing the four parts of the syntax
    for [d] to the output file. *)
Theorem main_ignores_parse_error (w : World) (xml : XmlFile) (d : Variables)
        (e : error) (file : File) :
  let input := nth 1 (Args w) "" in
  let fn := strings_Trim w (path_Base w input) (path_Ext w input) in
  (3 <= List.length (Args w))%nat ->
  os_Open w input = inr xml ->
  xml_Unmarshal w (xml_bytes xml) new_Variables = (d, Some e) ->
  os_Create w (path_Dir w input ++ "/" ++ fn ++ ".sps") = inr file ->
  no_faults file ->
  main w
  = Exit0 (emit (DataList_chunks (nth 2 (Args w) "") d
                   ++ VariableLabels_chunks d
                   ++ ValueLabels_chunks d
                   ++ [SaveToSPSS_chunk (path_Dir w input) fn]) file).
Proof.
  intros input fn Hargs Hopen Hparse Hcreate Hf. unfold main.
  apply Nat.ltb_ge in Hargs. rewrite Hargs.
  fold input. rewrite Hopen. unfold ReadAll. rewrite Hparse.
  fold fn. rewrite Hcreate.
  rewrite DataList_writes, write_all_no_faults by exact Hf.
  rewrite VariableLabels_writes, write_all_no_faults by (apply no_faults_emit, Hf).
  rewrite ValueLabels_writes, write_all_no_faults
    by (do 2 apply no_faults_emit; exact Hf).
  rewrite SaveToSPSS_no_faults by (do 3 apply no_faults_emit; exact Hf).
  rewrite !emit_emit, <- ?app_assoc. reflexivity.
Qed.

Lemma main_ignores_parse_error_witness :
  main Sample.broken_xml
  = Exit0 (emit (DataList_chunks "C:/MySurvey.asc" new_Variables
                   ++ VariableLabels_chunks new_Variables
                   ++ ValueLabels_chunks new_Variables
                   ++ [SaveToSPSS_chunk "C:" "MySurvey"]) empty_file).
Proof.
  exact (main_ignores_parse_error Sample.broken_xml
           {| xml_bytes := "<sss><survey>"; xml_read_err := None |}
           new_Variables Sample.syntax_error empty_file
           (le_n 3) eq_refl eq_refl eq_refl no_faults_empty).
Defined.

(** * Further properties of the code *)

(** ** The alignment marker *)

Ltac eqb_cases :=
  repeat match goal with
         | |- context [(?a =? ?b)%string] =>
             let E := fresh "E" in destruct (String.eqb_spec a b) as [E|E]
         end.

(** [VarType] returns the marker [" (A)"] exactly for the types [character],
    [time] and [date], and the empty string for every other type. *)
Theorem VarType_marker (v : Variable_) :
  (VarType v = " (A)" <->
   Type_ v = "character" \/ Type_ v = "time" \/ Type_ v = "date") /\
  (VarType v = "" <->
   Type_ v <> "character" /\ Type_ v <> "time" /\ Type_ v <> "date").
Proof.
  unfold VarType. eqb_cases; cbn [orb]; split; split; intro H;
    try discriminate H; try reflexivity; try tauto.
Qed.

(** For every variable [v] of a document that is not [multiple], whatever its
    coded values, written to a file on which no write fails, [DataList] adds
    at the place of [v] exactly one line: the name, the start and finish
    columns as declared, and the marker of [VarType]. *)
Theorem DataList_plain_line (o : string) (f : File) (d : Variables)
        (pre post : list Variable_) (v : Variable_) :
  no_faults f ->
  Variable' d = (pre ++ v :: post)%list ->
  Type_ v <> "multiple" ->
  snd (DataList o f d) = None /\
  contents (fst (DataList o f d))
  = (contents f ++ DataList_header o
       ++ flat_map layout_chunks pre
       ++ [layout_entry (Name v)
             (fmt_d (Start (Position v)) ++ "-" ++ fmt_d (Finish (Position v))
                    ++ VarType v)]
       ++ flat_map layout_chunks post
       ++ [DataList_trailer])%list.
Proof.
  intros Hf Hd Hty.
  assert (Hm : is_multiple v = false) by (apply String.eqb_neq; exact Hty).
  destruct (run_no_faults _ _ _ Hf (DataList_writes o f d)) as [Herr Hc].
  assert (Hv : layout_chunks v
               = [layout_entry (Name v)
                    (fmt_d (Start (Position v)) ++ "-" ++ fmt_d (Finish (Position v))
                           ++ VarType v)]).
  { unfold layout_chunks. rewrite Hm. cbn [negb].
    unfold layout_line, layout_entry. rewrite !append_assoc. reflexivity. }
  split; [exact Herr|].
  rewrite Hc. unfold DataList_chunks. rewrite Hd, flat_map_app.
  cbn [flat_map]. rewrite Hv, <- !app_assoc. reflexivity.
Qed.

Lemma DataList_plain_line_witness :
  contents (fst (DataList "C:/MySurvey.asc" empty_file Sample.survey))
  = ([] ++ DataList_header "C:/MySurvey.asc"
       ++ flat_map layout_chunks [Sample.Q1; Sample.Q2]
       ++ [layout_entry "Q3" "8-8"]
       ++ flat_map layout_chunks [Sample.Q4; Sample.Q5; Sample.Q6]
       ++ [DataList_trailer])%list.
Proof.
  exact (proj2
    (DataList_plain_line "C:/MySurvey.asc" empty_file Sample.survey
       [Sample.Q1; Sample.Q2] [Sample.Q4; Sample.Q5; Sample.Q6] Sample.Q3
       no_faults_empty eq_refl
       (fun H => @eq_ind string "single"
                   (fun s => if (s =? "single")%string then True else False)
                   I _ H))).
Defined.

(** ** What each generator does not read *)

Lemma enumerate_map {A B} (g : A -> B) (l : list A) (from : int) :
  enumerate from (map g l)
  = map (fun ix => (fst ix, g (snd ix))) (enumerate from l).
Proof.
  revert from. induction l as [|x l IH]; intro from; simpl; [|rewrite IH]; reflexivity.
Qed.

Lemma flat_map_view {A B} (view : A -> A) (ch : A -> list B) (l : list A) :
  (forall x, ch (view x) = ch x) ->
  flat_map ch (map view l) = flat_map ch l.
Proof.
  intro H. induction l as [|x l IH]; simpl; [|rewrite H, IH]; reflexivity.
Qed.

Lemma layout_chunks_view (v : Variable_) :
  layout_chunks (layout_view v) = layout_chunks v.
Proof.
  unfold layout_chunks, layout_view, is_multiple; cbn [Type_ Vals].
  destruct (Type_ v =? "multiple")%string; cbn [negb].
  - rewrite enumerate_map, map_map. reflexivity.
  - reflexivity.
Qed.

Lemma label_chunks_view (v : Variable_) :
  label_chunks (label_view v) = label_chunks v.
Proof.
  unfold label_chunks, label_view, is_multiple; cbn [Type_ Vals].
  destruct (Type_ v =? "multiple")%string; cbn [negb].
  - rewrite map_map. reflexivity.
  - reflexivity.
Qed.

Lemma value_chunks_view (v : Variable_) :
  value_chunks (value_view v) = value_chunks v.
Proof. reflexivity. Qed.

(** [DataList] reads of a variable its type, name and start column, its
    finish column unless it is [multiple], and the codes of its coded values
    when it is [multiple]: two documents that agree on these get the same
    layout block, on every file, whatever their labels, the texts of their
    coded values, the finish columns of their [multiple] variables and the
    coded values of the others. *)
Theorem DataList_reads_layout_view (o : string) (f : File) (d d' : Variables) :
  map layout_view (Variable' d) = map layout_view (Variable' d') ->
  DataList o f d = DataList o f d'.
Proof.
  intro H. rewrite !DataList_writes. unfold DataList_chunks.
  rewrite <- (flat_map_view layout_view layout_chunks (Variable' d) layout_chunks_view).
  rewrite <- (flat_map_view layout_view layout_chunks (Variable' d') layout_chunks_view).
  rewrite H. reflexivity.
Qed.

Lemma DataList_reads_layout_view_witness :
  DataList "C:/MySurvey.asc" empty_file {| Variable' := [Sample.Q3] |}
  = DataList "C:/MySurvey.asc" empty_file
      {| Variable' := [Sample.var "single" "Q3" "Sex" 8 8 []] |}.
Proof.
  exact (DataList_reads_layout_view "C:/MySurvey.asc" empty_file
           {| Variable' := [Sample.Q3] |}
           {| Variable' := [Sample.var "single" "Q3" "Sex" 8 8 []] |} eq_refl).
Defined.

(** [VariableLabels] reads of a variable its type, name and label, and the
    codes of its coded values when it is [multiple]: two documents that agree
    on these get the same variable-label block, on every file, whatever their
    columns and the texts of their coded values. *)
Theorem VariableLabels_reads_label_view (f : File) (d d' : Variables) :
  map label_view (Variable' d) = map label_view (Variable' d') ->
  VariableLabels f d = VariableLabels f d'.
Proof.
  intro H. rewrite !VariableLabels_writes. unfold VariableLabels_chunks.
  rewrite <- (flat_map_view label_view label_chunks (Variable' d) label_chunks_view).
  rewrite <- (flat_map_view label_view label_chunks (Variable' d') label_chunks_view).
  rewrite H. reflexivity.
Qed.

Lemma VariableLabels_reads_label_view_witness :
  VariableLabels empty_file {| Variable' := [Sample.Q2] |}
  = VariableLabels empty_file
      {| Variable' := [Sample.var "multiple" "Q2" "Multi" 20 29 [(1, "Rouge"); (2, "Bleu")]] |}.
Proof.
  exact (VariableLabels_reads_label_view empty_file
           {| Variable' := [Sample.Q2] |}
           {| Variable' := [Sample.var "multiple" "Q2" "Multi" 20 29
                              [(1, "Rouge"); (2, "Bleu")]] |} eq_refl).
Defined.

(** [ValueLabels] reads neither the label nor the columns of a variable: two
    documents that agree on the types, names and coded values of their
    variables get the same value-label block, on every file. *)
Theorem ValueLabels_reads_value_view (f : File) (d d' : Variables) :
  map value_view (Variable' d) = map value_view (Variable' d') ->
  ValueLabels f d = ValueLabels f d'.
Proof.
  intro H. rewrite !ValueLabels_writes. unfold ValueLabels_chunks.
  rewrite <- (flat_map_view value_view value_chunks (Variable' d) value_chunks_view).
  rewrite <- (flat_map_view value_view value_chunks (Variable' d') value_chunks_view).
  rewrite H. reflexivity.
Qed.

Lemma ValueLabels_reads_value_view_witness :
  ValueLabels empty_file {| Variable' := [Sample.Q3] |}
  = ValueLabels empty_file {| Variable' := [Scene.Q3'] |}.
Proof.
  exact (ValueLabels_reads_value_view empty_file
           {| Variable' := [Sample.Q3] |} {| Variable' := [Scene.Q3'] |} eq_refl).
Defined.

(** ** Failing writes, continued *)

Lemma DataList_returns_write_error_witness :
  DataList "C:/MySurvey.asc" Scene.third_write_fails Sample.doc
  = ({| contents := [ "FILE HANDLE longdata" ++ NL ++ "/NAME=" ++ DQ
                        ++ "C:/MySurvey.asc" ++ DQ ++ "." ++ NL;
                      "DATA LIST FILE=longdata" ++ NL ++ "/";
                      TAB ++ "Q1" ];
        pending := [] |}, Some Sample.disk_full).
Proof.
  exact (DataList_returns_write_error "C:/MySurvey.asc" Sample.doc
           Scene.third_write_fails 2
           {| fault_err := Sample.disk_full; fault_written := 3 |} []
           eq_refl (le_S _ _ (le_S _ _ (le_S _ _ (le_n 3))))).
Defined.

Lemma VariableLabels_returns_write_error_witness :
  VariableLabels Scene.third_write_fails Sample.doc
  = ({| contents := [ "VARIABLE LABELS" ++ NL;
                      TAB ++ "Q1" ++ TAB ++ DQ ++ "Question 1" ++ DQ ++ NL;
                      TAB ++ "Q2" ];
        pending := [] |}, Some Sample.disk_full).
Proof.
  exact (VariableLabels_returns_write_error Sample.doc
           Scene.third_write_fails 2
           {| fault_err := Sample.disk_full; fault_written := 3 |} []
           eq_refl (le_S _ _ (le_S _ _ (le_n 3)))).
Defined.

Lemma ValueLabels_returns_write_error_witness :
  ValueLabels Scene.third_write_fails Sample.doc
  = ({| contents := [ "VALUE LABELS" ++ NL;
                      TAB ++ "Q2#1" ++ NL;
                      TAB ++ TAB ++ "0" ];
        pending := [] |}, Some Sample.disk_full).
Proof.
  exact (ValueLabels_returns_write_error Sample.doc
           Scene.third_write_fails 2
           {| fault_err := Sample.disk_full; fault_written := 3 |} []
           eq_refl (le_S _ _ (le_S _ _ (le_S _ _ (le_n 3))))).
Defined.

(** A run of writes that ends without an error has written every string. *)
Lemma write_all_ok (l : list string) (f f' : File) :
  write_all l f = (f', None) -> contents f' = (contents f ++ l)%list.
Proof.
  revert f. induction l as [|s l IH]; intros f H.
  - inversion H; subst. rewrite app_nil_r. reflexivity.
  - rewrite write_all_cons in H. unfold andThen in H.
    destruct (WriteString s f) as [f1 [e|]] eqn:Ew; [discriminate H|].
    rewrite (IH f1 H).
    unfold WriteString in Ew.
    destruct (pending f) as [|[ft|] p]; inversion Ew; subst; simpl;
      rewrite <- app_assoc; reflexivity.
Qed.

(** When a block generator returns [nil], the whole block is in the file:
    the strings of the block follow what the file held, none missing. *)
Theorem nil_means_block_written (o : string) (f f' : File) (d : Variables) :
  (DataList o f d = (f', None) ->
   contents f' = (contents f ++ DataList_chunks o d)%list) /\
  (VariableLabels f d = (f', None) ->
   contents f' = (contents f ++ VariableLabels_chunks d)%list) /\
  (ValueLabels f d = (f', None) ->
   contents f' = (contents f ++ ValueLabels_chunks d)%list).
Proof.
  repeat split; intro H.
  - rewrite DataList_writes in H. apply write_all_ok, H.
  - rewrite VariableLabels_writes in H. apply write_all_ok, H.
  - rewrite ValueLabels_writes in H. apply write_all_ok, H.
Qed.

Lemma nil_means_block_written_witness :
  contents (emit (DataList_chunks "C:/MySurvey.asc" Sample.doc) empty_file)
  = ([] ++ DataList_chunks "C:/MySurvey.asc" Sample.doc)%list.
Proof.
  exact (proj1
    (nil_means_block_written "C:/MySurvey.asc" empty_file
       (emit (DataList_chunks "C:/MySurvey.asc" Sample.doc) empty_file) Sample.doc)
    eq_refl).
Defined.

(** ** The run of [main] *)

Lemma SaveToSPSS_as_write (p fn : string) (f : File) :
  SaveToSPSS p fn f
  = match write_all [SaveToSPSS_chunk p fn] f with
    | (f', Some err) => (f', Fatalln err)
    | (f', None) => (f', Returned None)
    end.
Proof.
  unfold SaveToSPSS. fold (SaveToSPSS_chunk p fn).
  rewrite (write_all_one (SaveToSPSS_chunk p fn) f). reflexivity.
Qed.

(** Once both files are open, [main] is one run of writes over the four
    parts: the first error ends the process with status 1 and its message,
    no error ends it with status 0. *)
Lemma main_run (w : World) (xml : XmlFile) (d : Variables) (oe : option error)
      (file : File) :
  (3 <= List.length (Args w))%nat ->
  os_Open w (input_of w) = inr xml ->
  xml_Unmarshal w (xml_bytes xml) new_Variables = (d, oe) ->
  os_Create w (sps_path w) = inr file ->
  main w
  = match write_all (syntax_chunks (nth 2 (Args w) "") (path_Dir w (input_of w))
                                   (fn_of w) d) file with
    | (f', Some e) => Exit1 (Error e ++ NL) (Some f')
    | (f', None) => Exit0 f'
    end.
Proof.
  intros Hargs Hopen Hparse Hcreate. unfold main.
  apply Nat.ltb_ge in Hargs. rewrite Hargs.
  fold (input_of w). rewrite Hopen. unfold ReadAll. rewrite Hparse.
  fold (fn_of w). fold (sps_path w). rewrite Hcreate.
  unfold syntax_chunks.
  rewrite DataList_writes, (write_all_app (DataList_chunks _ d) _ file).
  unfold andThen at 1.
  destruct (write_all (DataList_chunks _ d) file) as [f1 [e|]]; [reflexivity|].
  rewrite VariableLabels_writes, (write_all_app (VariableLabels_chunks d) _ f1).
  unfold andThen at 1.
  destruct (write_all (VariableLabels_chunks d) f1) as [f2 [e|]]; [reflexivity|].
  rewrite ValueLabels_writes, (write_all_app (ValueLabels_chunks d) _ f2).
  unfold andThen at 1.
  destruct (write_all (ValueLabels_chunks d) f2) as [f3 [e|]]; [reflexivity|].
  rewrite SaveToSPSS_as_write.
  destruct (write_all [SaveToSPSS_chunk _ _] f3) as [f4 [e|]]; reflexivity.
Qed.

Lemma main_without_arguments (w : World) :
  (List.length (Args w) < 3)%nat ->
  main w = Exit1 ("Usage: XMLtoSPS <XML:filepath> <ASC:filepath>" ++ NL) None.
Proof. intro H. unfold main. apply Nat.ltb_lt in H. rewrite H. reflexivity. Qed.

Lemma main_aborts_on_create_error (w : World) (xml : XmlFile) (err : error) :
  (3 <= List.length (Args w))%nat ->
  os_Open w (input_of w) = inr xml ->
  os_Create w (sps_path w) = inl err ->
  main w
  = Exit1 (log_line ("Please use forward slash in file path. As an example C:/Users/..."
                       ++ NL ++ Error err)) None.
Proof.
  intros Hargs Hopen Hcreate. unfold main.
  apply Nat.ltb_ge in Hargs. fold (input_of w). rewrite Hargs, Hopen.
  unfold ReadAll. destruct (xml_Unmarshal w (xml_bytes xml) new_Variables) as [d oe].
  fold (fn_of w). fold (sps_path w). rewrite Hcreate. reflexivity.
Qed.

(** [main] writes nothing in three cases: with fewer than two arguments
    after the program name it exits with the usage message, whatever the
    files are; when the input does not open it exits with the message of
    that error; when the output cannot be created it exits with the hint on
    forward slashes followed by the message of that error, whatever the
    decoder made of the input. *)
Theorem main_aborts_before_generation (w : World) :
  ((List.length (Args w) < 3)%nat ->
   main w = Exit1 ("Usage: XMLtoSPS <XML:filepath> <ASC:filepath>" ++ NL) None) /\
  (forall err,
      (3 <= List.length (Args w))%nat ->
      os_Open w (input_of w) = inl err ->
      main w = Exit1 (Error err ++ NL) None) /\
  (forall xml err,
      (3 <= List.length (Args w))%nat ->
      os_Open w (input_of w) = inr xml ->
      os_Create w (sps_path w) = inl err ->
      main w
      = Exit1 (log_line ("Please use forward slash in file path. As an example C:/Users/..."
                           ++ NL ++ Error err)) None).
Proof.
  repeat split.
  - apply main_without_arguments.
  - intros err Hargs Hopen. apply main_aborts_on_open_error; assumption.
  - intros xml err. apply main_aborts_on_create_error.
Qed.

Lemma main_aborts_before_generation_witness :
  main Scene.no_args
  = Exit1 ("Usage: XMLtoSPS <XML:filepath> <ASC:filepath>" ++ NL) None /\
  main Scene.no_input
  = Exit1 ("open C:/MySurvey.xml: no such file or directory" ++ NL) None /\
  main Scene.no_output
  = Exit1 ("Please use forward slash in file path. As an example C:/Users/..."
             ++ NL ++ "open C:/MySurvey.sps: permission denied" ++ NL) None.
Proof.
  split; [|split].
  - exact (proj1 (main_aborts_before_generation Scene.no_args) (le_S _ _ (le_n 2))).
  - exact (proj1 (proj2 (main_aborts_before_generation Scene.no_input))
             Scene.not_found (le_n 3) eq_refl).
  - exact (proj2 (proj2 (main_aborts_before_generation Scene.no_output))
             Scene.xml Scene.denied (le_n 3) eq_refl eq_refl).
Defined.

(** When both files open and the write number [k] of the run is the first to
    fail, in whichever of the four parts it falls, [main] exits with status 1
    and the message of that error; the output file holds the [k] strings
    written before and the part of the failed one that got through, and no
    write is attempted after it. *)
Theorem main_stops_at_first_failed_write (w : World) (xml : XmlFile)
        (d : Variables) (oe : option error) (file : File)
        (k : nat) (ft : Fault) (rest : list (option Fault)) :
  let chunks := syntax_chunks (nth 2 (Args w) "") (path_Dir w (input_of w))
                              (fn_of w) d in
  (3 <= List.length (Args w))%nat ->
  os_Open w (input_of w) = inr xml ->
  xml_Unmarshal w (xml_bytes xml) new_Variables = (d, oe) ->
  os_Create w (sps_path w) = inr file ->
  pending file = (repeat None k ++ Some ft :: rest)%list ->
  (k < List.length chunks)%nat ->
  main w
  = Exit1 (Error (fault_err ft) ++ NL)
          (Some {| contents := contents file ++ firstn k chunks
                                 ++ [substring 0 (fault_written ft) (nth k chunks "")];
                   pending := rest |}).
Proof.
  intros chunks Hargs Hopen Hparse Hcreate Hp Hk.
  rewrite (main_run w xml d oe file Hargs Hopen Hparse Hcreate).
  fold chunks. rewrite (write_all_fault chunks k ft rest file Hp Hk). reflexivity.
Qed.

Lemma main_stops_at_first_failed_write_witness :
  main Scene.disk_fills
  = Exit1 ("write out.sps: no space left on device" ++ NL)
          (Some {| contents := [ "FILE HANDLE longdata" ++ NL ++ "/NAME=" ++ DQ
                                   ++ "C:/MySurvey.asc" ++ DQ ++ "." ++ NL;
                                 "DATA LIST FILE=longdata" ++ NL ++ "/";
                                 TAB ++ "Q1" ];
                   pending := [] |}).
Proof.
  exact (main_stops_at_first_failed_write Scene.disk_fills Scene.xml Sample.doc None
           Scene.third_write_fails 2
           {| fault_err := Sample.disk_full; fault_written := 3 |} []
           (le_n 3) eq_refl eq_refl eq_refl eq_refl
           (proj1 (Nat.ltb_lt 2 18) eq_refl)).
Defined.

(** ** The text of the output file *)

Lemma append_empty_r (s : string) : s ++ "" = s.
Proof. induction s as [|c s IH]; simpl; [|rewrite IH]; reflexivity. Qed.

Lemma concat_cons (x : string) (l : list string) :
  String.concat "" (x :: l) = x ++ String.concat "" l.
Proof. destruct l; simpl; [rewrite append_empty_r|]; reflexivity. Qed.

Lemma concat_app (l1 l2 : list string) :
  String.concat "" (l1 ++ l2) = String.concat "" l1 ++ String.concat "" l2.
Proof.
  induction l1 as [|x l1 IH].
  - reflexivity.
  - change ((x :: l1) ++ l2)%list with (x :: (l1 ++ l2))%list.
    rewrite !concat_cons, IH, append_assoc. reflexivity.
Qed.

Lemma file_bytes_emit (l : list string) (f : File) :
  file_bytes (emit l f) = file_bytes f ++ String.concat "" l.
Proof. unfold file_bytes, emit; simpl. apply concat_app. Qed.

(** When both files open and no write fails, whatever the decoder returned
    beside the document [d], [main] exits with status 0 and the output file
    holds, after what it held, the layout block, the variable-label block,
    the value-label block and the save directive of [d], in this order and
    with nothing between them. *)
Theorem main_writes_four_parts (w : World) (xml : XmlFile) (d : Variables)
        (oe : option error) (file : File) :
  let o := nth 2 (Args w) "" in
  let p := path_Dir w (input_of w) in
  (3 <= List.length (Args w))%nat ->
  os_Open w (input_of w) = inr xml ->
  xml_Unmarshal w (xml_bytes xml) new_Variables = (d, oe) ->
  os_Create w (sps_path w) = inr file ->
  no_faults file ->
  exists out,
    main w = Exit0 out /\
    contents out = (contents file ++ syntax_chunks o p (fn_of w) d)%list /\
    file_bytes out
    = file_bytes file
        ++ String.concat "" (DataList_chunks o d)
        ++ String.concat "" (VariableLabels_chunks d)
        ++ String.concat "" (ValueLabels_chunks d)
        ++ SaveToSPSS_chunk p (fn_of w).
Proof.
  intros o p Hargs Hopen Hparse Hcreate Hf.
  exists (emit (syntax_chunks o p (fn_of w) d) file).
  rewrite (main_run w xml d oe file Hargs Hopen Hparse Hcreate).
  fold o p. rewrite write_all_no_faults by exact Hf.
  repeat split.
  rewrite file_bytes_emit. unfold syntax_chunks.
  rewrite !concat_app. reflexivity.
Qed.

Lemma main_writes_four_parts_witness :
  exists out,
    main Scene.good = Exit0 out /\
    contents out
    = ([] ++ syntax_chunks "C:/MySurvey.asc" "C:" "MySurvey" Sample.doc)%list /\
    file_bytes out
    = file_bytes empty_file
        ++ String.concat "" (DataList_chunks "C:/MySurvey.asc" Sample.doc)
        ++ String.concat "" (VariableLabels_chunks Sample.doc)
        ++ String.concat "" (ValueLabels_chunks Sample.doc)
        ++ SaveToSPSS_chunk "C:" "MySurvey".
Proof.
  exact (main_writes_four_parts Scene.good Scene.xml Sample.doc None empty_file
           (le_n 3) eq_refl eq_refl eq_refl no_faults_empty).
Defined.

(** [main] exits with status 0 only after a complete run: both files were
    opened, and the output file holds, after what it held when created, every
    string of the four parts for the decoded document. *)
Theorem main_exit0_means_complete (w : World) (out : File) :
  main w = Exit0 out ->
  (3 <= List.length (Args w))%nat /\
  exists xml d oe file,
    os_Open w (input_of w) = inr xml /\
    xml_Unmarshal w (xml_bytes xml) new_Variables = (d, oe) /\
    os_Create w (sps_path w) = inr file /\
    contents out
    = (contents file
         ++ syntax_chunks (nth 2 (Args w) "") (path_Dir w (input_of w)) (fn_of w) d)%list.
Proof.
  intro H.
  destruct (Nat.lt_ge_cases (List.length (Args w)) 3) as [Hlt|Hge].
  { rewrite (main_without_arguments w Hlt) in H. discriminate H. }
  split; [exact Hge|].
  destruct (os_Open w (input_of w)) as [err|xml] eqn:Eo.
  { rewrite (main_aborts_on_open_error w err Hge Eo) in H. discriminate H. }
  destruct (os_Create w (sps_path w)) as [err|file] eqn:Ec.
  { rewrite (main_aborts_on_create_error w xml err Hge Eo Ec) in H. discriminate H. }
  destruct (xml_Unmarshal w (xml_bytes xml) new_Variables) as [d oe] eqn:Ep.
  exists xml, d, oe, file.
  do 3 (split; [first [reflexivity | assumption]|]).
  rewrite (main_run w xml d oe file Hge Eo Ep Ec) in H.
  destruct (write_all _ file) as [f' [e|]] eqn:Ew; [discriminate H|].
  injection H as <-. apply (write_all_ok _ _ _ Ew).
Qed.

Lemma main_exit0_means_complete_witness :
  (3 <= List.length (Args Scene.good))%nat /\
  exists xml d oe file,
    os_Open Scene.good (input_of Scene.good) = inr xml /\
    xml_Unmarshal Scene.good (xml_bytes xml) new_Variables = (d, oe) /\
    os_Create Scene.good (sps_path Scene.good) = inr file /\
    contents (emit (syntax_chunks "C:/MySurvey.asc" "C:" "MySurvey" Sample.doc) empty_file)
    = (contents file
         ++ syntax_chunks (nth 2 (Args Scene.good) "") (path_Dir Scene.good (input_of Scene.good))
              (fn_of Scene.good) d)%list.
Proof.
  exact (main_exit0_means_complete Scene.good
           (emit (syntax_chunks "C:/MySurvey.asc" "C:" "MySurvey" Sample.doc) empty_file)
           eq_refl).
Defined.

(** ** Edge cases of the blocks *)

(** On a document without variables, written to a file on which no write
    fails, each block is its header and its trailer and nothing else. *)
Theorem blocks_of_empty_document (o : string) (f : File) (d : Variables) :
  no_faults f ->
  Variable' d = [] ->
  contents (fst (DataList o f d))
  = (contents f ++ DataList_header o ++ [DataList_trailer])%list /\
  contents (fst (VariableLabels f d))
  = (contents f ++ [VariableLabels_header; VariableLabels_trailer])%list /\
  contents (fst (ValueLabels f d))
  = (contents f ++ [ValueLabels_header; ValueLabels_trailer])%list.
Proof.
  intros Hf Hd.
  destruct (run_no_faults _ _ _ Hf (DataList_writes o f d)) as [_ Hl].
  destruct (run_no_faults _ _ _ Hf (VariableLabels_writes f d)) as [_ Hv].
  destruct (run_no_faults _ _ _ Hf (ValueLabels_writes f d)) as [_ Hs].
  rewrite Hl, Hv, Hs.
  unfold DataList_chunks, VariableLabels_chunks, ValueLabels_chunks.
  rewrite Hd. repeat split.
Qed.

Lemma blocks_of_empty_document_witness :
  contents (fst (ValueLabels empty_file new_Variables))
  = [ "VALUE LABELS" ++ NL; "EXECUTE." ++ NL ++ NL ].
Proof.
  exact (proj2 (proj2
    (blocks_of_empty_document "C:/MySurvey.asc" empty_file new_Variables
       no_faults_empty eq_refl))).
Defined.

(** A [single] variable without coded values still gets a section in the
    value-label block: its name and the separator, with no label line
    between them. *)
Theorem ValueLabels_single_without_values (f : File) (d : Variables)
        (pre post : list Variable_) (v : Variable_) :
  no_faults f ->
  Variable' d = (pre ++ v :: post)%list ->
  Type_ v = "single" ->
  Vals v = [] ->
  contents (fst (ValueLabels f d))
  = (contents f ++ [ValueLabels_header]
       ++ flat_map value_chunks pre
       ++ [section_name (Name v); "/"]
       ++ flat_map value_chunks post
       ++ [ValueLabels_trailer])%list.
Proof.
  intros Hf Hd Hty Hvals.
  destruct (ValueLabels_around f d pre post v Hf Hd) as [_ Hc].
  rewrite Hc. unfold value_chunks at 2. rewrite Hty, Hvals. reflexivity.
Qed.

Lemma ValueLabels_single_without_values_witness :
  contents (fst (ValueLabels empty_file {| Variable' := [Sample.Q1; Scene.Q7] |}))
  = [ "VALUE LABELS" ++ NL; TAB ++ "Q7" ++ NL; "/"; "EXECUTE." ++ NL ++ NL ].
Proof.
  exact (ValueLabels_single_without_values empty_file
           {| Variable' := [Sample.Q1; Scene.Q7] |} [Sample.Q1] [] Scene.Q7
           no_faults_empty eq_refl eq_refl eq_refl).
Defined.
